(** * Financial forecast pipeline

    A shallow embedding of the data-preparation and forecast-configuration
    pipeline of [forecast_app.py]: column classification, series building,
    model selection, forecast index construction, metrics and CSV export.

    Conventions of the embedding.
    - A pandas column is a typed array: its dtype is the constructor of
      [ColData]; a missing entry (NaN / NaT / None) is [None].
    - Numeric values are rationals ([Q]): exact arithmetic stands for the
      float64 arithmetic of pandas; a non-finite float result is [None].
    - Python exceptions are the left summand of [Exc]; the payload is the
      text [str(e)] of the exception.
    - The external libraries consumed as black boxes (the exponential
      smoothing solver, the date and number parsers of pandas, the float
      printer) are [Variable]s of the enclosing [Section]. *)

From Stdlib Require Import List String Ascii Bool Arith ZArith QArith Lia.
From Stdlib Require Import Permutation Sorted.
Import ListNotations.

Set Implicit Arguments.
Local Open Scope string_scope.
Local Open Scope list_scope.
Local Open Scope nat_scope.

(* ------------------------------------------------------------------ *)
(** ** Exceptions *)

Module Exc.

Definition t (A : Type) : Type := (string + A)%type.

Definition ret {A} (a : A) : t A := inr a.
Definition raise {A} (msg : string) : t A := inl msg.

Definition bind {A B} (c : t A) (k : A -> t B) : t B :=
  match c with
  | inl e => inl e
  | inr a => k a
  end.

Definition succeeds {A} (c : t A) : bool :=
  match c with inl _ => false | inr _ => true end.

End Exc.

Notation "x <- c ;; k" := (Exc.bind c (fun x => k))
  (at level 61, c at next level, right associativity).
Notation "' pat <- c ;; k" := (Exc.bind c (fun x => match x with pat => k end))
  (at level 61, pat pattern, c at next level, right associativity).

(* ------------------------------------------------------------------ *)
(** ** Timestamps and calendar arithmetic *)

(** A pandas [Timestamp] in civil form.  [ts_tod] is the time of day; the
    month arithmetic below carries it along unchanged, as pandas does. *)
Record Timestamp : Type := mkTs {
  ts_year : Z;
  ts_month : Z;
  ts_day : Z;
  ts_tod : Z
}.

(** Chronological order: lexicographic on (year, month, day, time of day). *)
Definition ts_compare (a b : Timestamp) : comparison :=
  match (ts_year a ?= ts_year b)%Z with
  | Eq =>
      match (ts_month a ?= ts_month b)%Z with
      | Eq =>
          match (ts_day a ?= ts_day b)%Z with
          | Eq => (ts_tod a ?= ts_tod b)%Z
          | c => c
          end
      | c => c
      end
  | c => c
  end.

Definition ts_leb (a b : Timestamp) : bool :=
  match ts_compare a b with Gt => false | _ => true end.

Definition ts_ltb (a b : Timestamp) : bool :=
  match ts_compare a b with Lt => true | _ => false end.

Definition is_leap (y : Z) : bool :=
  ((y mod 4 =? 0) && (negb (y mod 100 =? 0) || (y mod 400 =? 0)))%Z.

Definition days_in_month (y m : Z) : Z :=
  if (m =? 2)%Z then (if is_leap y then 29 else 28)
  else if ((m =? 4) || (m =? 6) || (m =? 9) || (m =? 11))%Z then 30
  else 31.

(** Months are counted from year 0: [month_index] and [of_month_index] are
    inverse on months 1..12. *)
Definition month_index (t : Timestamp) : Z := ts_year t * 12 + (ts_month t - 1).

Definition of_month_index (i : Z) : Z * Z := (i / 12, i mod 12 + 1)%Z.

(** [t + pd.DateOffset(months=k)]: move [k] months, clamp the day to the
    length of the target month, keep the time of day. *)
Definition date_offset_months (k : Z) (t : Timestamp) : Timestamp :=
  let '(y, m) := of_month_index (month_index t + k) in
  mkTs y m (Z.min (ts_day t) (days_in_month y m)) (ts_tod t).

(** The [MS] (month start) frequency of pandas, [MonthBegin]. *)
Definition month_begin_on_offset (t : Timestamp) : bool := (ts_day t =? 1)%Z.

(** [t + MonthBegin(1)]: the first day of the next month. *)
Definition month_begin_next (t : Timestamp) : Timestamp :=
  let '(y, m) := of_month_index (month_index t + 1) in
  mkTs y m 1 (ts_tod t).

(** [MonthBegin().rollforward(t)]. *)
Definition month_begin_rollforward (t : Timestamp) : Timestamp :=
  if month_begin_on_offset t then t else month_begin_next t.

Fixpoint generate_range (cur : Timestamp) (periods : nat) : list Timestamp :=
  match periods with
  | O => []
  | S k => cur :: generate_range (month_begin_next cur) k
  end.

(** [pd.date_range(start=start, periods=periods, freq='MS')]. *)
Definition date_range_MS (start : Timestamp) (periods : nat) : list Timestamp :=
  generate_range (month_begin_rollforward start) periods.

(* ------------------------------------------------------------------ *)
(** ** Series *)

(** A pandas Series with a datetime index: (index, value) pairs in order. *)
Definition Series : Type := list (Timestamp * Q).

Definition series_index (s : Series) : list Timestamp := map fst s.
Definition series_values (s : Series) : list Q := map snd s.

(** [xs[-1]] / [xs.iloc[-1]]: an [IndexError] on the empty sequence. *)
Definition last_item {A} (xs : list A) : Exc.t A :=
  match rev xs with
  | [] => Exc.raise "index -1 is out of bounds for axis 0 with size 0"
  | x :: _ => Exc.ret x
  end.

(** [s.index = idx]: a [ValueError] unless the lengths agree. *)
Definition set_index (vals : list Q) (idx : list Timestamp) : Exc.t Series :=
  if Nat.eqb (List.length vals) (List.length idx)
  then Exc.ret (combine idx vals)
  else Exc.raise "Length mismatch".

(* ------------------------------------------------------------------ *)
(** ** Forecast Engine: [generate_forecast] *)

Inductive Component : Type := Additive.

(** The keyword arguments handed to [ExponentialSmoothing]. *)
Record ModelConfig : Type := mkConfig {
  trend : option Component;
  seasonal : option Component;
  seasonal_periods : option nat;
  damped_trend : bool
}.

(** The three branches on [n_obs]. *)
Definition model_config (n_obs : nat) : ModelConfig :=
  if 24 <=? n_obs then
    mkConfig (Some Additive) (Some Additive) (Some 12) true
  else if 12 <=? n_obs then
    mkConfig (Some Additive) None None true
  else
    mkConfig (Some Additive) None None false.

(** The start of the forecast index: [last_date + pd.DateOffset(months=1)]
    handed to [pd.date_range(..., freq='MS')]. *)
Definition forecast_index (time_series : Series) (forecast_periods : nat)
  : Exc.t (list Timestamp) :=
  last_date <- last_item (series_index time_series) ;;
  Exc.ret (date_range_MS (date_offset_months 1 last_date) forecast_periods).

Section ForecastEngine.

(** The exponential smoothing library, a black box. *)
Variable Model : Type.
Variable FittedModel : Type.
(** [ExponentialSmoothing(time_series, **config)]. *)
Variable ExponentialSmoothing : Series -> ModelConfig -> Exc.t Model.
(** [model.fit(optimized=True)]. *)
Variable fit : Model -> Exc.t FittedModel.
(** [fitted_model.forecast(steps)], the values of the returned Series. *)
Variable forecast : FittedModel -> nat -> Exc.t (list Q).

(** The body of the [try] block. *)
Definition generate_forecast_try (time_series : Series) (forecast_periods : nat)
  : Exc.t (Series * FittedModel) :=
  let n_obs := List.length time_series in
  model <- ExponentialSmoothing time_series (model_config n_obs) ;;
  fitted_model <- fit model ;;
  fc <- forecast fitted_model forecast_periods ;;
  idx <- forecast_index time_series forecast_periods ;;
  fc' <- set_index fc idx ;;
  Exc.ret (fc', fitted_model).

(** The result triple (forecast, fitted model, error message). *)
Definition generate_forecast (time_series : Series) (forecast_periods : nat)
  : option Series * option FittedModel * option string :=
  match generate_forecast_try time_series forecast_periods with
  | inr (fc, fitted_model) => (Some fc, Some fitted_model, None)
  | inl e => (None, None, Some ("Forecasting error: " ++ e)%string)
  end.

End ForecastEngine.

(* ------------------------------------------------------------------ *)
(** ** Tables *)

(** A Python scalar held by an object-dtype column. *)
Inductive Cell : Type :=
| CStr (s : string)
| CNum (q : Q)
| CDate (t : Timestamp).

(** A column is a typed array; the constructor is its dtype.  [None] is a
    missing entry (NaT, NaN or None). *)
Inductive ColData : Type :=
| DatetimeCol (xs : list (option Timestamp))
| NumericCol (xs : list (option Q))
| ObjectCol (xs : list (option Cell)).

Record Column : Type := mkCol {
  col_name : string;
  col_data : ColData
}.

(** A DataFrame: [df_nrows] is [len(df)], the length of the row index.
    Column labels are strings and are assumed distinct, as [read_excel]
    delivers them. *)
Record DataFrame : Type := mkDF {
  df_nrows : nat;
  df_columns : list Column
}.

Definition col_len (c : Column) : nat :=
  match col_data c with
  | DatetimeCol xs => List.length xs
  | NumericCol xs => List.length xs
  | ObjectCol xs => List.length xs
  end.

(** Row alignment: every column has one entry per row. *)
Definition aligned (df : DataFrame) : bool :=
  forallb (fun c => Nat.eqb (col_len c) (df_nrows df)) (df_columns df).

(** The entries of a column as Python scalars, as iteration yields them. *)
Definition col_cells (d : ColData) : list (option Cell) :=
  match d with
  | DatetimeCol xs => map (option_map CDate) xs
  | NumericCol xs => map (option_map CNum) xs
  | ObjectCol xs => xs
  end.

Definition is_datetime64_any_dtype (d : ColData) : bool :=
  match d with DatetimeCol _ => true | _ => false end.

Definition is_numeric_dtype (d : ColData) : bool :=
  match d with NumericCol _ => true | _ => false end.

(** [df[col]]: the column labelled [name]. *)
Definition get_column (df : DataFrame) (name : string) : option Column :=
  find (fun c => String.eqb (col_name c) name) (df_columns df).

(** [name in df.columns]. *)
Definition has_column (df : DataFrame) (name : string) : bool :=
  existsb (fun c => String.eqb (col_name c) name) (df_columns df).

(** [xs.dropna()]. *)
Fixpoint dropna {A} (xs : list (option A)) : list A :=
  match xs with
  | [] => []
  | Some x :: t => x :: dropna t
  | None :: t => dropna t
  end.

(** [xs.notna().sum()]. *)
Definition notna_count {A} (xs : list (option A)) : nat := List.length (dropna xs).

(* ------------------------------------------------------------------ *)
(** ** Strings: [str.lower] and the [in] test *)

Definition lower_ascii (c : ascii) : ascii :=
  let n := nat_of_ascii c in
  if (65 <=? n) && (n <=? 90) then ascii_of_nat (n + 32) else c.

(** [s.lower()], on ASCII letters. *)
Fixpoint lower (s : string) : string :=
  match s with
  | EmptyString => EmptyString
  | String c t => String (lower_ascii c) (lower t)
  end.

(** [needle in hay]. *)
Fixpoint contains (needle hay : string) : bool :=
  if String.prefix needle hay then true
  else match hay with
       | EmptyString => false
       | String _ t => contains needle t
       end.

(** [any(keyword in s for keyword in keywords)]. *)
Definition any_keyword_in (keywords : list string) (s : string) : bool :=
  existsb (fun keyword => contains keyword s) keywords.

Definition date_keywords : list string :=
  ["date"; "month"; "period"; "time"; "quarter"; "year"; "day"; "week"].

Definition common_formats : list string :=
  ["%Y-%m-%d"; "%d/%m/%Y"; "%m/%d/%Y"; "%d-%m-%Y"; "%Y/%m/%d"; "%d.%m.%Y";
   "%Y-%m-%d %H:%M:%S"; "%d/%m/%Y %H:%M:%S"; "%Y-%m"; "%m/%Y";
   "%b %Y"; "%B %Y"; "%d %b %Y"; "%d %B %Y"].

(** [valid_ratio > 0.8] with [valid_ratio = valid / total].  The quotient
    is exact here; the float quotient agrees with it on the comparison for
    every table of fewer than 2^50 rows. *)
Definition valid_ratio (valid total : nat) : Q :=
  inject_Z (Z.of_nat valid) / inject_Z (Z.of_nat total).

Definition Qgtb (a b : Q) : bool := negb (Qle_bool a b).

(** [str(n)] of a non-negative integer. *)
Fixpoint str_nat_aux (fuel n : nat) (acc : string) : string :=
  match fuel with
  | O => acc
  | S fuel' =>
      let acc' := String (ascii_of_nat (48 + n mod 10)) acc in
      if n <? 10 then acc' else str_nat_aux fuel' (n / 10) acc'
  end.

Definition str_nat (n : nat) : string := str_nat_aux (S n) n EmptyString.

Definition value_keywords : list string :=
  ["revenue"; "sales"; "amount"; "value"; "total"; "price";
   "income"; "profit"; "cost"; "expense"; "payment"; "balance";
   "sum"; "money"; "fee"; "charge"; "earning"].

(** Truth value of an optional string: [None] and the empty string are
    false. *)
Definition truthy (o : option string) : bool :=
  match o with
  | Some s => negb (String.eqb s EmptyString)
  | None => false
  end.

(* ------------------------------------------------------------------ *)
(** ** Column Classifier and Series Builder *)

Section Pandas.

(** The parsers of pandas, black boxes. *)

(** [pd.to_datetime(str(val), format=fmt)] returns (does not raise
    [ValueError] or [TypeError]). *)
Variable strptime_ok : string -> Cell -> bool.

(** [pd.to_datetime(column, format=fmt)] at one non-missing entry of a
    column that is not datetime-typed; the whole column is passed along
    because the format guessed by pandas depends on it.  [None]: the
    entry does not parse. *)
Variable to_datetime_entry :
  option string -> list (option Cell) -> Cell -> option Timestamp.

(** [pd.to_numeric] at a string. *)
Variable numeric_of_string : string -> option Q.

(** The int64 view of a timestamp (nanoseconds since the epoch). *)
Variable epoch_ns : Timestamp -> Q.

(** [infer_date_format(series)]. *)
Definition infer_date_format (series : ColData) : option string :=
  let sample := firstn 5 (dropna (col_cells series)) in
  if Nat.eqb (List.length sample) 0 then None
  else find (fun fmt => forallb (strptime_ok fmt) sample) common_formats.

(** Entry-wise result of [pd.to_datetime(series, format=fmt)]:
    [inr None] is NaT for a missing entry, [inl tt] an entry that does not
    parse. *)
Definition to_datetime_entries (fmt : option string) (series : ColData)
  : list (unit + option Timestamp) :=
  match series with
  | DatetimeCol xs => map inr xs
  | _ =>
      let cells := col_cells series in
      map (fun o => match o with
                    | None => inr None
                    | Some c => match to_datetime_entry fmt cells c with
                                | Some t => inr (Some t)
                                | None => inl tt
                                end
                    end) cells
  end.

(** [pd.to_datetime(series, format=fmt, errors='coerce')]. *)
Definition to_datetime_coerce (fmt : option string) (series : ColData)
  : list (option Timestamp) :=
  map (fun r => match r with inl _ => None | inr o => o end)
      (to_datetime_entries fmt series).

Fixpoint sequence_entries {A} (rs : list (unit + A)) : option (list A) :=
  match rs with
  | [] => Some []
  | inl _ :: _ => None
  | inr a :: t => option_map (cons a) (sequence_entries t)
  end.

(** [pd.to_datetime(series, format=fmt)] (errors='raise'). *)
Definition to_datetime_raise (fmt : option string) (series : ColData)
  : Exc.t (list (option Timestamp)) :=
  match sequence_entries (to_datetime_entries fmt series) with
  | Some ts => Exc.ret ts
  | None => Exc.raise "time data doesn't match format"
  end.

(** Entry-wise result of [pd.to_numeric(series)]. *)
Definition to_numeric_entries (series : ColData) : list (unit + option Q) :=
  match series with
  | NumericCol xs => map inr xs
  | DatetimeCol xs =>
      map (fun o => match o with
                    | Some t => inr (Some (epoch_ns t))
                    | None => inr (Some (inject_Z (- 9223372036854775808)))
                    end) xs
  | ObjectCol xs =>
      map (fun o => match o with
                    | None => inr None
                    | Some (CNum q) => inr (Some q)
                    | Some (CStr s) => match numeric_of_string s with
                                       | Some q => inr (Some q)
                                       | None => inl tt
                                       end
                    | Some (CDate _) => inl tt
                    end) xs
  end.

(** [pd.to_numeric(series, errors='coerce')]. *)
Definition to_numeric_coerce (series : ColData) : list (option Q) :=
  map (fun r => match r with inl _ => None | inr o => o end)
      (to_numeric_entries series).

(** [pd.to_numeric(series, errors='raise')]. *)
Definition to_numeric_raise (series : ColData) : Exc.t (list (option Q)) :=
  match sequence_entries (to_numeric_entries series) with
  | Some qs => Exc.ret qs
  | None => Exc.raise "Unable to parse string"
  end.

(** *** [detect_date_column] *)

Definition is_keyword_match (col : Column) : bool :=
  any_keyword_in date_keywords (lower (col_name col)).

Definition between (lo hi : Q) (q : Q) : bool := Qle_bool lo q && Qle_bool q hi.

(** One pass of the loop body: does [col] get appended to one of the two
    lists? *)
Definition date_candidate (df : DataFrame) (col : Column) : bool :=
  match col_data col with
  | DatetimeCol _ => true
  | NumericCol xs =>
      let sample := firstn 10 (dropna xs) in
      if forallb (between (inject_Z 1900) (inject_Z 2100)) sample
      then false
      else false
  | ObjectCol _ =>
      let date_format := infer_date_format (col_data col) in
      let parsed := to_datetime_coerce date_format (col_data col) in
      Qgtb (valid_ratio (notna_count parsed) (df_nrows df)) (8 # 10)
  end.

(** The loop over [df.columns], threading the two lists. *)
Fixpoint detect_date_loop (df : DataFrame) (cols : list Column)
         (keyword_matches date_columns : list string)
  : list string * list string :=
  match cols with
  | [] => (keyword_matches, date_columns)
  | col :: rest =>
      if date_candidate df col then
        if is_keyword_match col
        then detect_date_loop df rest (keyword_matches ++ [col_name col]) date_columns
        else detect_date_loop df rest keyword_matches (date_columns ++ [col_name col])
      else detect_date_loop df rest keyword_matches date_columns
  end.

Definition detect_date_column (df : DataFrame) : option string :=
  let '(keyword_matches, date_columns) := detect_date_loop df (df_columns df) [] [] in
  let all_date_cols := keyword_matches ++ date_columns in
  hd_error all_date_cols.

(** *** [validate_columns] *)

Definition validate_columns (df : DataFrame) (date_col value_col : string)
  : bool * option string :=
  match get_column df date_col, get_column df value_col with
  | Some dc, Some vc =>
      match to_datetime_raise None (col_data dc) with
      | inl _ =>
          (false, Some ("'" ++ date_col ++
             "' cannot be converted to dates. Please select a valid date column.")%string)
      | inr _ =>
          if negb (is_numeric_dtype (col_data vc))
             && negb (Exc.succeeds (to_numeric_raise (col_data vc)))
          then
            (false, Some ("'" ++ value_col ++
               "' is not numeric. Please select a column with numerical values.")%string)
          else if df_nrows df <? 6 then
            (false, Some "At least 6 data points are required for forecasting.")
          else (true, None)
      end
  | _, _ => (false, Some "Selected columns not found in the data.")
  end.

(** *** [prepare_time_series] *)

(** [ts_df.dropna()]: keep the rows where both entries are present. *)
Fixpoint dropna_rows (rows : list (option Timestamp * option Q)) : Series :=
  match rows with
  | [] => []
  | (Some t, Some q) :: rest => (t, q) :: dropna_rows rest
  | _ :: rest => dropna_rows rest
  end.

Fixpoint insert_row (r : Timestamp * Q) (sorted : Series) : Series :=
  match sorted with
  | [] => [r]
  | x :: rest =>
      if ts_leb (fst r) (fst x) then r :: sorted else x :: insert_row r rest
  end.

(** [ts_df.sort_values(date_col)]: ascending by date.  pandas does not
    fix the relative order of rows with equal dates; the insertion sort
    here keeps them in row order. *)
Definition sort_values (rows : Series) : Series := fold_right insert_row [] rows.

(** Selecting the same label twice makes [ts_df[date_col]] a frame, on
    which [pd.to_datetime] raises; the model raises at the selection. *)
Definition prepare_time_series (df : DataFrame) (date_col value_col : string)
  : Exc.t Series :=
  if String.eqb date_col value_col then
    Exc.raise "to assemble mappings requires at least that [year, month, day] be specified"
  else
    match get_column df date_col, get_column df value_col with
    | Some dc, Some vc =>
        let date_format := infer_date_format (col_data dc) in
        dates <- to_datetime_raise date_format (col_data dc) ;;
        let values := to_numeric_coerce (col_data vc) in
        let ts_df := combine dates values in
        let ts_df := dropna_rows ts_df in
        let ts_df := sort_values ts_df in
        Exc.ret ts_df
    | _, _ => Exc.raise "not in index"
    end.

(** *** [detect_numeric_columns] *)

(** The test of the loop body: numeric dtype, or no exception from
    [pd.to_numeric(df[col], errors='raise')]. *)
Definition numeric_candidate (col : Column) : bool :=
  if is_numeric_dtype (col_data col) then true
  else Exc.succeeds (to_numeric_raise (col_data col)).

(** The loop over [df.columns]; [exclude_col] is [None] by default and is
    equal to no label then. *)
Fixpoint detect_numeric_loop (cols : list Column) (exclude_col : option string)
         (numeric_cols : list string) : list string :=
  match cols with
  | [] => numeric_cols
  | col :: rest =>
      if match exclude_col with
         | Some x => String.eqb (col_name col) x
         | None => false
         end
      then detect_numeric_loop rest exclude_col numeric_cols
      else if numeric_candidate col
           then detect_numeric_loop rest exclude_col (numeric_cols ++ [col_name col])
           else detect_numeric_loop rest exclude_col numeric_cols
  end.

Definition detect_numeric_columns (df : DataFrame) (exclude_col : option string)
  : list string :=
  detect_numeric_loop (df_columns df) exclude_col [].

(** *** The validation block of [main] *)

(** The flags and messages the block leaves behind. *)
Record Validation : Type := mkValidation {
  validation_passed : bool;
  date_valid : bool;
  value_valid : bool;
  date_error : option string;
  value_error : option string
}.

(** The [try] block on the date column: (passed, date_valid, date_error).
    A missing label raises inside the [try] and is reported. *)
Definition main_validate_date (df : DataFrame) (date_col : string)
  : bool * bool * option string :=
  match get_column df date_col with
  | None => (false, false, Some ("Error parsing dates: '" ++ date_col ++ "'")%string)
  | Some dc =>
      let date_format := infer_date_format (col_data dc) in
      let test_parsed := to_datetime_coerce date_format (col_data dc) in
      let valid_count := notna_count test_parsed in
      if Nat.eqb valid_count 0 then
        (false, false,
         Some ("Could not parse dates in '" ++ date_col ++
               "'. Try a different column or check your date format.")%string)
      else if Qgtb (inject_Z (Z.of_nat (df_nrows df)) * (8 # 10))
                   (inject_Z (Z.of_nat valid_count)) then
        (true, false,
         Some ("Only " ++ str_nat valid_count ++ "/" ++ str_nat (df_nrows df) ++
               " rows have valid dates. Some rows may be skipped.")%string)
      else (true, true, None)
  end.

(** The whole block.  [df[value_col]] stands outside any [try]: a missing
    label is a [KeyError]. *)
Definition main_validation (df : DataFrame) (date_col value_col : string)
  : Exc.t Validation :=
  let '(passed, d_valid, d_error) := main_validate_date df date_col in
  match get_column df value_col with
  | None => Exc.raise ("'" ++ value_col ++ "'")%string
  | Some vc =>
      let '(passed, v_valid, v_error) :=
        if negb (is_numeric_dtype (col_data vc)) then
          if Exc.succeeds (to_numeric_raise (col_data vc))
          then (passed, true, None)
          else (false, false,
                Some ("'" ++ value_col ++
                      "' is not numeric. Please select a column with numbers.")%string)
        else (passed, true, None) in
      let passed := if String.eqb date_col value_col then false else passed in
      Exc.ret (mkValidation passed d_valid v_valid d_error v_error)
  end.

(** The column detection at the top of the workflow of [main]. *)
Definition main_detect (df : DataFrame)
  : option string * list string :=
  let detected_date_col := detect_date_column df in
  let numeric_columns := detect_numeric_columns df detected_date_col in
  (detected_date_col, numeric_columns).

(** What [validate_columns] requires of a table. *)
Definition acceptable (df : DataFrame) (date_col value_col : string) : Prop :=
  exists dc vc,
    get_column df date_col = Some dc /\
    get_column df value_col = Some vc /\
    Exc.succeeds (to_datetime_raise None (col_data dc)) = true /\
    numeric_candidate vc = true /\
    6 <= df_nrows df.

End Pandas.

(** The timestamps of a TimeSeries are strictly increasing. *)
Fixpoint strictly_increasing (ts : list Timestamp) : bool :=
  match ts with
  | [] => true
  | a :: rest =>
      match rest with
      | [] => true
      | b :: _ => ts_ltb a b && strictly_increasing rest
      end
  end.

Definition ts_le (a b : Timestamp) : Prop := ts_leb a b = true.

(* ------------------------------------------------------------------ *)
(** ** Metrics: [calculate_metrics] *)

(** [values.sum()]: 0 on the empty series. *)
Definition Qsum (xs : list Q) : Q := fold_right Qplus 0%Q xs.

Definition series_sum (s : Series) : Q := Qsum (series_values s).

(** [values.mean()]: NaN on the empty series. *)
Definition series_mean (s : Series) : option Q :=
  match s with
  | [] => None
  | _ => Some (series_sum s / inject_Z (Z.of_nat (List.length s)))%Q
  end.

(** Float division: a zero divisor gives inf or NaN, a non-finite value. *)
Definition float_div (a b : Q) : option Q :=
  if Qeq_bool b 0 then None else Some (a / b)%Q.

Record Metrics : Type := mkMetrics {
  historical_avg : option Q;
  forecast_avg : option Q;
  growth_rate : option Q;
  projected_total : Q;
  historical_total : Q;
  forecast_periods : nat
}.

Definition calculate_metrics (historical_data forecast_data : Series)
  : Exc.t Metrics :=
  let historical_avg := series_mean historical_data in
  let forecast_avg := series_mean forecast_data in
  last_historical <- last_item (series_values historical_data) ;;
  last_forecast <- last_item (series_values forecast_data) ;;
  let growth_rate :=
    option_map (fun r => r * 100)%Q
               (float_div (last_forecast - last_historical) last_historical) in
  let projected_total := series_sum forecast_data in
  Exc.ret (mkMetrics historical_avg forecast_avg growth_rate projected_total
                     (series_sum historical_data) (List.length forecast_data)).

(* ------------------------------------------------------------------ *)
(** ** CSV export: [create_download_csv] *)

(** A Python dict keeps insertion order; assigning to a key that is present
    replaces the value in place. *)
Fixpoint dict_set {V} (d : list (string * V)) (k : string) (v : V)
  : list (string * V) :=
  match d with
  | [] => [(k, v)]
  | (k', v') :: rest =>
      if String.eqb k' k then (k', v) :: rest else (k', v') :: dict_set rest k v
  end.

(** A dict display [{k1: v1, k2: v2, ...}]. *)
Definition dict_literal {V} (items : list (string * V)) : list (string * V) :=
  fold_left (fun d kv => dict_set d (fst kv) (snd kv)) items [].

(** The columns of the combined frame. *)
Inductive FrameCol : Type :=
| DateValues (xs : list Timestamp)
| NumValues (xs : list Q)
| StrValues (xs : list string).

Definition digit (n : nat) : ascii := ascii_of_nat (48 + n mod 10).

Definition pad2 (n : nat) : string :=
  String (digit (n / 10)) (String (digit n) EmptyString).

Definition pad4 (n : nat) : string :=
  String (digit (n / 1000)) (String (digit (n / 100)) (pad2 n)).

(** [t.strftime('%d/%m/%Y')]; pandas years have four digits. *)
Definition strftime_dmy (t : Timestamp) : string :=
  (pad2 (Z.to_nat (ts_day t)) ++ "/" ++ pad2 (Z.to_nat (ts_month t)) ++ "/" ++
   pad4 (Z.to_nat (ts_year t)))%string.

Definition quote_char : ascii := ascii_of_nat 34.

Fixpoint mentions (c : ascii) (s : string) : bool :=
  match s with
  | EmptyString => false
  | String c' t => Ascii.eqb c c' || mentions c t
  end.

Fixpoint double_quotes (s : string) : string :=
  match s with
  | EmptyString => EmptyString
  | String c t =>
      if Ascii.eqb c quote_char
      then String quote_char (String quote_char (double_quotes t))
      else String c (double_quotes t)
  end.

(** The minimal quoting of the csv writer. *)
Definition csv_quote (field : string) : string :=
  if mentions "," field || mentions quote_char field
     || mentions (ascii_of_nat 10) field || mentions (ascii_of_nat 13) field
  then String quote_char (double_quotes field ++ String quote_char EmptyString)%string
  else field.

Definition newline : string := String (ascii_of_nat 10) EmptyString.

Fixpoint join (sep : string) (fields : list string) : string :=
  match fields with
  | [] => EmptyString
  | [f] => f
  | f :: rest => (f ++ sep ++ join sep rest)%string
  end.

Definition csv_line (fields : list string) : string :=
  (join "," fields ++ newline)%string.

Definition concat_lines (ls : list string) : string :=
  fold_right String.append EmptyString ls.

(** Row-major reading of [n] rows out of rendered columns. *)
Fixpoint frame_rows (n : nat) (cols : list (list string)) : list (list string) :=
  match n with
  | O => []
  | S k => map (hd EmptyString) cols :: frame_rows k (map (@tl string) cols)
  end.

Section CsvExport.

(** The float printer of [to_csv], the default text of a timestamp and the
    reading of a number as nanoseconds since the epoch: black boxes. *)
Variable repr_float : Q -> string.
Variable str_timestamp : Timestamp -> string.
Variable timestamp_of_ns : Q -> Timestamp.

(** [pd.to_datetime(col).dt.strftime('%d/%m/%Y')]. *)
Definition format_dates (c : FrameCol) : FrameCol :=
  match c with
  | DateValues xs => StrValues (map strftime_dmy xs)
  | NumValues xs => StrValues (map (fun q => strftime_dmy (timestamp_of_ns q)) xs)
  | StrValues xs => StrValues xs
  end.

Definition render_col (c : FrameCol) : list string :=
  match c with
  | DateValues xs => map str_timestamp xs
  | NumValues xs => map repr_float xs
  | StrValues xs => map csv_quote xs
  end.

(** [df.to_csv(index=False)] on a frame of [n] rows. *)
Definition to_csv (n : nat) (frame : list (string * FrameCol)) : string :=
  let header := csv_line (map (fun kv => csv_quote (fst kv)) frame) in
  let rows := frame_rows n (map (fun kv => render_col (snd kv)) frame) in
  (header ++ concat_lines (map csv_line rows))%string.

(** The frame built from the dict display, before the dates are
    formatted. *)
Definition combined_frame (historical_data forecast_data : Series)
           (value_col_name : string) : list (string * FrameCol) :=
  dict_literal
    [ ("Date", DateValues (series_index historical_data ++ series_index forecast_data));
      (value_col_name,
       NumValues (series_values historical_data ++ series_values forecast_data));
      ("Type", StrValues (repeat "Historical" (List.length historical_data)
                          ++ repeat "Forecast" (List.length forecast_data))) ].

(** [combined_df['Date'] = f(combined_df['Date'])]. *)
Definition update_date_column (frame : list (string * FrameCol))
  : list (string * FrameCol) :=
  map (fun kv => if String.eqb (fst kv) "Date"
                 then (fst kv, format_dates (snd kv)) else kv) frame.

Definition create_download_csv (historical_data forecast_data : Series)
           (value_col_name : string) : string :=
  let combined_df := combined_frame historical_data forecast_data value_col_name in
  let combined_df := update_date_column combined_df in
  to_csv (List.length historical_data + List.length forecast_data) combined_df.

(** The export as the interface description words it: a header line, one
    line per history row tagged Historical, one line per forecast row
    tagged Forecast. *)
Definition export_row (tag : string) (r : Timestamp * Q) : string :=
  csv_line [strftime_dmy (fst r); repr_float (snd r); tag].

Definition export_spec (historical_data forecast_data : Series)
           (value_col_name : string) : string :=
  (csv_line ["Date"; csv_quote value_col_name; "Type"]
   ++ concat_lines (map (export_row "Historical") historical_data)
   ++ concat_lines (map (export_row "Forecast") forecast_data))%string.

End CsvExport.

(* ------------------------------------------------------------------ *)
(** ** The generate step of [main] *)

Section MainPipeline.

Variable strptime_ok : string -> Cell -> bool.
Variable to_datetime_entry :
  option string -> list (option Cell) -> Cell -> option Timestamp.
Variable numeric_of_string : string -> option Q.
Variable epoch_ns : Timestamp -> Q.
Variable Model : Type.
Variable FittedModel : Type.
Variable ExponentialSmoothing : Series -> ModelConfig -> Exc.t Model.
Variable fit : Model -> Exc.t FittedModel.
Variable forecast : FittedModel -> nat -> Exc.t (list Q).

(** The validation block, then, once the button is pressed and
    [validation_passed] holds, [prepare_time_series] and
    [generate_forecast] on its result.  [None]: the button is disabled and
    nothing is generated.  The result keeps the series that was handed to
    [generate_forecast] beside what it returned. *)
Definition main_generate (df : DataFrame) (date_col value_col : string)
           (forecast_months : nat)
  : Exc.t (option (Series * (option Series * option FittedModel * option string))) :=
  v <- main_validation strptime_ok to_datetime_entry numeric_of_string epoch_ns
         df date_col value_col ;;
  if validation_passed v then
    time_series <- prepare_time_series strptime_ok to_datetime_entry
                     numeric_of_string epoch_ns df date_col value_col ;;
    Exc.ret (Some (time_series,
                   generate_forecast ExponentialSmoothing fit forecast
                                     time_series forecast_months))
  else Exc.ret None.

End MainPipeline.

(* ------------------------------------------------------------------ *)
(** ** Value column suggestion and the option lists of [main] *)

(** The loop of [suggest_value_column], threading the two lists. *)
Fixpoint suggest_value_loop (numeric_columns : list string)
         (keyword_matches other_cols : list string) : list string * list string :=
  match numeric_columns with
  | [] => (keyword_matches, other_cols)
  | col :: rest =>
      let col_lower := lower col in
      if any_keyword_in value_keywords col_lower
      then suggest_value_loop rest (keyword_matches ++ [col]) other_cols
      else suggest_value_loop rest keyword_matches (other_cols ++ [col])
  end.

(** [suggest_value_column(df, numeric_columns)]; [df] is not read. *)
Definition suggest_value_column (df : DataFrame) (numeric_columns : list string)
  : option string :=
  match numeric_columns with
  | [] => None
  | _ =>
      let '(keyword_matches, other_cols) := suggest_value_loop numeric_columns [] [] in
      match keyword_matches with
      | k :: _ => Some k
      | [] => match other_cols with
              | o :: _ => Some o
              | [] => None
              end
      end
  end.

(** [[detected] + [c for c in df.columns if c != detected]], or all the
    labels when nothing was detected. *)
Definition date_options (df : DataFrame) (detected_date_col : option string)
  : list string :=
  match detected_date_col with
  | Some d =>
      if truthy detected_date_col
      then d :: filter (fun c => negb (String.eqb c d)) (map col_name (df_columns df))
      else map col_name (df_columns df)
  | None => map col_name (df_columns df)
  end.

(** The options of the value selector: the suggestion first when there is
    a numeric column, otherwise every label but the date column. *)
Definition value_options (df : DataFrame) (date_col : string)
           (numeric_columns : list string) (suggested_value_col : option string)
  : list string :=
  if 1 <=? List.length numeric_columns then
    match suggested_value_col with
    | Some s =>
        if truthy suggested_value_col
        then s :: filter (fun c => negb (String.eqb c s)) numeric_columns
        else numeric_columns
    | None => numeric_columns
    end
  else filter (fun c => negb (String.eqb c date_col)) (map col_name (df_columns df)).

(* ------------------------------------------------------------------ *)
(** ** Loading: [load_excel_file] *)

(** [df.empty]: some axis has length 0. *)
Definition df_empty (df : DataFrame) : bool :=
  Nat.eqb (df_nrows df) 0 || Nat.eqb (List.length (df_columns df)) 0.

Section Loading.

(** [pd.read_excel(uploaded_file, engine='openpyxl')], a black box. *)
Variable UploadedFile : Type.
Variable read_excel : UploadedFile -> Exc.t DataFrame.

Definition load_excel_file (uploaded_file : UploadedFile)
  : option DataFrame * option string :=
  match read_excel uploaded_file with
  | inr df =>
      if df_empty df then (None, Some "The uploaded file is empty.")
      else (Some df, None)
  | inl e => (None, Some ("Error reading file: " ++ e)%string)
  end.

End Loading.

(* ------------------------------------------------------------------ *)
(** ** Chart and report data *)

(** The dashed trace of [create_forecast_chart]: the last historical point
    followed by the forecast points. *)
Definition forecast_trace (historical_data forecast_data : Series)
  : Exc.t (list Timestamp * list Q) :=
  x0 <- last_item (series_index historical_data) ;;
  let forecast_x := x0 :: series_index forecast_data in
  y0 <- last_item (series_values historical_data) ;;
  let forecast_y := y0 :: series_values forecast_data in
  Exc.ret (forecast_x, forecast_y).

(** [xs[-n:]] for [n > 0]: the last [n] items, all of them when there are
    fewer. *)
Definition last_n {A} (n : nat) (xs : list A) : list A :=
  skipn (List.length xs - n) xs.

(** [growth_direction] of [create_pdf_report], on a finite growth rate. *)
Definition growth_direction (growth_rate : Q) : string :=
  if Qgtb growth_rate 0 then "increase" else "decrease".

Section Report.

(** [f"EUR {value:,.2f}"], a black box. *)
Variable format_eur : Q -> string.

(** The rows of the two data tables of [create_pdf_report]. *)
Definition hist_data (historical_data : Series) : list (list string) :=
  map (fun dv => [strftime_dmy (fst dv); format_eur (snd dv)])
      (combine (last_n 6 (series_index historical_data))
               (last_n 6 (series_values historical_data))).

Definition forecast_table_data (forecast_data : Series) : list (list string) :=
  map (fun dv => [strftime_dmy (fst dv); format_eur (snd dv)])
      (combine (series_index forecast_data) (series_values forecast_data)).

End Report.

(* ------------------------------------------------------------------ *)
(** ** The vocabulary of the specification *)

(** The three model variants of a ForecastConfig. *)
Definition seasonal_damped_trend : ModelConfig :=
  {| trend := Some Additive; seasonal := Some Additive;
     seasonal_periods := Some 12; damped_trend := true |}.

Definition damped_trend_only : ModelConfig :=
  {| trend := Some Additive; seasonal := None;
     seasonal_periods := None; damped_trend := true |}.

Definition simple_trend : ModelConfig :=
  {| trend := Some Additive; seasonal := None;
     seasonal_periods := None; damped_trend := false |}.

(** The label test at the head of the loop of [detect_numeric_columns]. *)
Definition excluded (exclude_col : option string) (col : Column) : bool :=
  match exclude_col with
  | Some x => String.eqb (col_name col) x
  | None => false
  end.

(** A candidate name carries a financial keyword. *)
Definition has_value_keyword (col : string) : bool :=
  any_keyword_in value_keywords (lower col).

(** The first day of the month [k] months after the month of [t]. *)
Definition month_start_after (t : Timestamp) (k : Z) : Timestamp :=
  let '(y, m) := of_month_index (month_index t + k) in
  mkTs y m 1 (ts_tod t).

(** [h] consecutive month starts, the first one [first] months after the
    month of [last]. *)
Definition month_starts_from (last : Timestamp) (first : Z) (h : nat)
  : list Timestamp :=
  map (fun k => month_start_after last (first + Z.of_nat k)) (seq 0 h).

(** The forecast dates of the specification: the month starts of the [h]
    months following the last historical timestamp. *)
Definition spec_forecast_dates (last : Timestamp) (h : nat) : list Timestamp :=
  month_starts_from last 1 h.

(* ------------------------------------------------------------------ *)
(** ** Sample inputs *)

Module Demo.

(** A stand-in for the smoothing library: the model records its inputs,
    fitting always succeeds, the forecast repeats the last observation. *)
Definition Model : Type := (Series * ModelConfig)%type.

Definition smoothing (ts : Series) (cfg : ModelConfig) : Exc.t Model :=
  Exc.ret (ts, cfg).

Definition fit (m : Model) : Exc.t Model := Exc.ret m.

Definition forecast (m : Model) (steps : nat) : Exc.t (list Q) :=
  v <- last_item (series_values (fst m)) ;;
  Exc.ret (repeat v steps).

(** A solver whose constructor always raises. *)
Definition broken_smoothing (ts : Series) (cfg : ModelConfig) : Exc.t Model :=
  Exc.raise "Cannot compute initial seasonals using heuristic method".

Definition date (y m d : Z) : Timestamp := mkTs y m d 0.

(** The last six of the 24 dates of [generate_sample_data.py], which are
    spaced 30 days apart from 2023-01-01; the amounts are illustrative. *)
Definition sample_tail : Series :=
  [ (date 2024 6 24, 145000 # 1); (date 2024 7 24, 143000 # 1);
    (date 2024 8 23, 147000 # 1); (date 2024 9 22, 160000 # 1);
    (date 2024 10 22, 168000 # 1); (date 2024 11 21, 185000 # 1) ]%Q.

(** Six observations on month starts. *)
Definition monthly : Series :=
  [ (date 2024 1 1, 100 # 1); (date 2024 2 1, 110 # 1); (date 2024 3 1, 120 # 1);
    (date 2024 4 1, 130 # 1); (date 2024 5 1, 140 # 1); (date 2024 6 1, 150 # 1) ]%Q.

(** Stand-ins for the parsers of pandas, right on the entries used
    below: ISO dates [YYYY-MM-DD] parse, under the first of the common
    formats and under generic parsing; other strings do not. *)
Definition digit_of (c : ascii) : option nat :=
  let n := nat_of_ascii c in
  if (48 <=? n) && (n <=? 57) then Some (n - 48) else None.

Fixpoint number_of (s : string) (acc : nat) : option nat :=
  match s with
  | EmptyString => Some acc
  | String c t =>
      match digit_of c with
      | Some d => number_of t (10 * acc + d)
      | None => None
      end
  end.

Definition parse_iso (s : string) : option Timestamp :=
  if Nat.eqb (String.length s) 10
     && String.eqb (String.substring 4 1 s) "-"
     && String.eqb (String.substring 7 1 s) "-"
  then
    match number_of (String.substring 0 4 s) 0,
          number_of (String.substring 5 2 s) 0,
          number_of (String.substring 8 2 s) 0 with
    | Some y, Some m, Some d =>
        let t := date (Z.of_nat y) (Z.of_nat m) (Z.of_nat d) in
        if (1 <=? m) && (m <=? 12) && (1 <=? d)
           && (Z.of_nat d <=? days_in_month (Z.of_nat y) (Z.of_nat m))%Z
        then Some t else None
    | _, _, _ => None
    end
  else None.

Definition strptime_ok (fmt : string) (c : Cell) : bool :=
  match c with
  | CStr s => String.eqb fmt "%Y-%m-%d" && (match parse_iso s with Some _ => true | None => false end)
  | CDate _ => String.eqb fmt "%Y-%m-%d %H:%M:%S"
  | CNum _ => false
  end.

Definition to_datetime_entry (fmt : option string) (column : list (option Cell))
           (c : Cell) : option Timestamp :=
  match c with
  | CStr s =>
      match fmt with
      | None => parse_iso s
      | Some f => if String.eqb f "%Y-%m-%d" then parse_iso s else None
      end
  | CDate t => Some t
  | CNum _ => None
  end.

Definition numeric_of_string (s : string) : option Q :=
  match s with
  | EmptyString => None
  | _ => option_map (fun n => inject_Z (Z.of_nat n)) (number_of s 0)
  end.

Definition epoch_ns (t : Timestamp) : Q := 0%Q.

(** Six rows on month starts; one amount is missing. *)
Definition six_rows_one_gap : DataFrame :=
  mkDF 6
    [ mkCol "Date" (DatetimeCol
        [ Some (date 2024 1 1); Some (date 2024 2 1); Some (date 2024 3 1);
          Some (date 2024 4 1); Some (date 2024 5 1); Some (date 2024 6 1) ]);
      mkCol "Revenue" (NumericCol
        [ Some (100 # 1); Some (110 # 1); None;
          Some (130 # 1); Some (140 # 1); Some (150 # 1) ])%Q ].

(** The rows of [six_rows_one_gap] that have both entries. *)
Definition five_points : Series :=
  [ (date 2024 1 1, 100 # 1); (date 2024 2 1, 110 # 1);
    (date 2024 4 1, 130 # 1); (date 2024 5 1, 140 # 1);
    (date 2024 6 1, 150 # 1) ]%Q.

(** Six complete rows, out of order, two of them on the same date. *)
Definition repeated_date : DataFrame :=
  mkDF 6
    [ mkCol "Date" (DatetimeCol
        [ Some (date 2024 3 1); Some (date 2024 1 1); Some (date 2024 2 1);
          Some (date 2024 2 1); Some (date 2024 5 1); Some (date 2024 4 1) ]);
      mkCol "Revenue" (NumericCol
        [ Some (120 # 1); Some (100 # 1); Some (110 # 1);
          Some (115 # 1); Some (140 # 1); Some (130 # 1) ])%Q ].

(** A text column of five entries, four of which are dates. *)
Definition booked : Column :=
  mkCol "Booked" (ObjectCol
    [ Some (CStr "2024-01-01"); Some (CStr "2024-02-01"); Some (CStr "2024-03-01");
      Some (CStr "2024-04-01"); Some (CStr "TBC") ]).

Definition four_of_five : DataFrame := mkDF 5 [booked].

(** A table whose first date-like column has no keyword in its name. *)
Definition invoices : DataFrame :=
  mkDF 3
    [ mkCol "Booked" (ObjectCol
        [ Some (CStr "2024-01-05"); Some (CStr "2024-02-05"); Some (CStr "2024-03-05") ]);
      mkCol "Year" (NumericCol [ Some (2024 # 1); Some (2024 # 1); Some (2024 # 1) ])%Q;
      mkCol "Invoice Date" (ObjectCol
        [ Some (CStr "2024-01-31"); Some (CStr "2024-02-29"); Some (CStr "2024-03-31") ]);
      mkCol "Revenue" (NumericCol [ Some (100 # 1); Some (110 # 1); Some (120 # 1) ])%Q ].

(** A second stand-in for [strptime], which also reads dates written with
    slashes, day first under [%d/%m/%Y] and month first under [%m/%d/%Y]. *)
Definition parse_slashed (day_first : bool) (s : string) : option Timestamp :=
  if Nat.eqb (String.length s) 10
     && String.eqb (String.substring 2 1 s) "/"
     && String.eqb (String.substring 5 1 s) "/"
  then
    match number_of (String.substring 0 2 s) 0,
          number_of (String.substring 3 2 s) 0,
          number_of (String.substring 6 4 s) 0 with
    | Some a, Some b, Some y =>
        let d := if day_first then a else b in
        let m := if day_first then b else a in
        if (1 <=? m) && (m <=? 12) && (1 <=? d)
           && (Z.of_nat d <=? days_in_month (Z.of_nat y) (Z.of_nat m))%Z
        then Some (date (Z.of_nat y) (Z.of_nat m) (Z.of_nat d)) else None
    | _, _, _ => None
    end
  else None.

Definition strptime_slashed_ok (fmt : string) (c : Cell) : bool :=
  match c with
  | CStr s =>
      if String.eqb fmt "%Y-%m-%d" then
        match parse_iso s with Some _ => true | None => false end
      else if String.eqb fmt "%d/%m/%Y" then
        match parse_slashed true s with Some _ => true | None => false end
      else if String.eqb fmt "%m/%d/%Y" then
        match parse_slashed false s with Some _ => true | None => false end
      else false
  | CDate _ => String.eqb fmt "%Y-%m-%d %H:%M:%S"
  | CNum _ => false
  end.

(** Dates that read either way round. *)
Definition ambiguous_dates : ColData :=
  ObjectCol [ Some (CStr "01/02/2024"); Some (CStr "03/04/2024"); None;
              Some (CStr "05/06/2024") ].

(** A clean table in date order. *)
Definition clean_dates : list Timestamp :=
  [ date 2024 1 1; date 2024 2 1; date 2024 3 1 ].

Definition clean_values : list Q := [ 100 # 1; 110 # 1; 120 # 1 ]%Q.

Definition clean_table : DataFrame :=
  mkDF 3 [ mkCol "Date" (DatetimeCol (map Some clean_dates));
           mkCol "Revenue" (NumericCol (map Some clean_values)) ].

(** A solver that answers with one value too few. *)
Definition forecast_one_short (m : Model) (steps : nat) : Exc.t (list Q) :=
  v <- last_item (series_values (fst m)) ;;
  Exc.ret (repeat v (steps - 1)).

(** Stand-ins for the export: whole amounts print with one decimal. *)
Fixpoint show_nat_aux (fuel n : nat) (acc : string) : string :=
  match fuel with
  | O => acc
  | S fuel' =>
      let acc' := String (digit n) acc in
      if n <? 10 then acc' else show_nat_aux fuel' (n / 10) acc'
  end.

Definition show_nat (n : nat) : string := show_nat_aux (S n) n EmptyString.

Definition repr_float (q : Q) : string :=
  (show_nat (Z.to_nat (Qnum q)) ++ ".0")%string.

Definition str_timestamp (t : Timestamp) : string := strftime_dmy t.

Definition timestamp_of_ns (q : Q) : Timestamp := date 1970 1 1.

Definition history_tail : Series :=
  [ (date 2024 5 1, 140 # 1); (date 2024 6 1, 150 # 1) ]%Q.

Definition one_step : Series := [ (date 2024 7 1, 155 # 1) ]%Q.

End Demo.

(* ------------------------------------------------------------------ *)
(** ** Forecast Engine: properties *)

Lemma model_config_cases (n : nat) :
  (24 <= n /\ model_config n = seasonal_damped_trend) \/
  (12 <= n < 24 /\ model_config n = damped_trend_only) \/
  (n < 12 /\ model_config n = simple_trend).
Proof.
  unfold model_config.
  destruct (24 <=? n) eqn:H24.
  - left. apply Nat.leb_le in H24. auto.
  - apply Nat.leb_gt in H24.
    destruct (12 <=? n) eqn:H12.
    + right; left. apply Nat.leb_le in H12. auto.
    + right; right. apply Nat.leb_gt in H12. auto.
Qed.

(** What a call does with the constructor at the configuration it selects:
    a failure of the constructor there is the failure of the call, a
    fitted model that is returned was fitted on the model built there,
    and the constructor is consulted nowhere else. *)
Lemma generate_forecast_builds_selected_model
      (Model FittedModel : Type)
      (ES : Series -> ModelConfig -> Exc.t Model)
      (fit : Model -> Exc.t FittedModel)
      (forecast : FittedModel -> nat -> Exc.t (list Q))
      (time_series : Series) (h : nat) :
  let cfg := model_config (List.length time_series) in
  (forall e, ES time_series cfg = inl e ->
             generate_forecast ES fit forecast time_series h
             = (None, None, Some ("Forecasting error: " ++ e)%string)) /\
  (forall fc fitted,
      generate_forecast ES fit forecast time_series h = (Some fc, Some fitted, None) ->
      exists model, ES time_series cfg = inr model /\ fit model = inr fitted) /\
  (forall ES' : Series -> ModelConfig -> Exc.t Model,
      ES' time_series cfg = ES time_series cfg ->
      generate_forecast ES' fit forecast time_series h
      = generate_forecast ES fit forecast time_series h).
Proof.
  intros cfg. unfold generate_forecast, generate_forecast_try. fold cfg.
  split; [| split].
  - intros e HES. rewrite HES. reflexivity.
  - intros fc fitted.
    destruct (ES time_series cfg) as [e | model]; simpl; [discriminate |].
    destruct (fit model) as [e | fm] eqn:Ef; simpl; [discriminate |].
    destruct (forecast fm h) as [e | vals]; simpl; [discriminate |].
    destruct (forecast_index time_series h) as [e | idx]; simpl; [discriminate |].
    destruct (set_index vals idx) as [e | fc']; simpl; [discriminate |].
    intros H. inversion H; subst. exists model. split; [reflexivity | exact Ef].
  - intros ES' HES. rewrite HES. reflexivity.
Qed.

(** C1. [generate_forecast] builds its model with a configuration selected
    from the length [n] of the series alone: with additive trend, additive
    season of period 12 and damped trend when [n >= 24], with damped
    additive trend and no season when [12 <= n < 24], with plain additive
    trend when [n < 12].  Built with a configuration means: a failure of
    the library's constructor at that configuration is the failure
    reported by the call, a fitted model the call returns was fitted on
    the model the constructor built at that configuration, and the result
    depends on the constructor through that configuration only.  Each
    variant is selected on its range of [n] and on no other. *)
Theorem C1_model_selected_from_length :
  forall (Model FittedModel : Type)
         (ES : Series -> ModelConfig -> Exc.t Model)
         (fit : Model -> Exc.t FittedModel)
         (forecast : FittedModel -> nat -> Exc.t (list Q))
         (time_series : Series) (h : nat),
    let n := List.length time_series in
    let result := generate_forecast ES fit forecast time_series h in
    let built_with (cfg : ModelConfig) :=
      (forall e, ES time_series cfg = inl e ->
                 result = (None, None, Some ("Forecasting error: " ++ e)%string)) /\
      (forall fc fitted,
          result = (Some fc, Some fitted, None) ->
          exists model, ES time_series cfg = inr model /\ fit model = inr fitted) /\
      (forall ES' : Series -> ModelConfig -> Exc.t Model,
          ES' time_series cfg = ES time_series cfg ->
          generate_forecast ES' fit forecast time_series h = result) in
    (24 <= n -> built_with seasonal_damped_trend) /\
    (12 <= n < 24 -> built_with damped_trend_only) /\
    (n < 12 -> built_with simple_trend) /\
    (model_config n = seasonal_damped_trend <-> 24 <= n) /\
    (model_config n = damped_trend_only <-> 12 <= n < 24) /\
    (model_config n = simple_trend <-> n < 12) /\
    (forall ES' : Series -> ModelConfig -> Exc.t Model,
        ES' time_series (model_config n) = ES time_series (model_config n) ->
        generate_forecast ES' fit forecast time_series h
        = generate_forecast ES fit forecast time_series h).
Proof.
  intros Model FittedModel ES fit forecast time_series h n result built_with.
  pose proof (model_config_cases n) as Hc.
  pose proof (generate_forecast_builds_selected_model ES fit forecast time_series h)
    as Hb.
  cbv zeta in Hb. fold n in Hb. fold result in Hb.
  assert (Hsel : built_with (model_config n)) by exact Hb.
  split; [| split; [| split]].
  - intros Hn. destruct Hc as [[_ E] | [[? _] | [? _]]]; try lia.
    rewrite <- E. exact Hsel.
  - intros Hn. destruct Hc as [[? _] | [[_ E] | [? _]]]; try lia.
    rewrite <- E. exact Hsel.
  - intros Hn. destruct Hc as [[? _] | [[? _] | [_ E]]]; try lia.
    rewrite <- E. exact Hsel.
  - repeat split.
    + intros E. destruct Hc as [[? _] | [[_ E'] | [_ E']]]; auto;
        rewrite E in E'; discriminate.
    + intros Hn. destruct Hc as [[_ E] | [[? _] | [? _]]]; auto; lia.
    + destruct Hc as [[_ E'] | [[[? _] _] | [_ E']]]; auto;
        rewrite H in E'; discriminate.
    + destruct Hc as [[_ E'] | [[[_ ?] _] | [_ E']]]; auto;
        rewrite H in E'; discriminate.
    + intros [? ?]. destruct Hc as [[? _] | [[_ E] | [? _]]]; auto; lia.
    + intros E. destruct Hc as [[_ E'] | [[_ E'] | [? _]]]; auto;
        rewrite E in E'; discriminate.
    + intros Hn. destruct Hc as [[? _] | [[[? _] _] | [_ E]]]; auto; lia.
    + exact (proj2 (proj2 Hb)).
Qed.

(** C9. [generate_forecast] always returns a result triple: either a
    forecast and a fitted model with no message, or no forecast, no model
    and a message that starts with "Forecasting error: ".  An exception of
    the constructor, of the fit or of the prediction ends up as that
    message. *)
Theorem C9_errors_are_returned :
  forall (Model FittedModel : Type)
         (ES : Series -> ModelConfig -> Exc.t Model)
         (fit : Model -> Exc.t FittedModel)
         (forecast : FittedModel -> nat -> Exc.t (list Q))
         (time_series : Series) (h : nat),
    let result := generate_forecast ES fit forecast time_series h in
    let failed e := result = (None, None, Some ("Forecasting error: " ++ e)%string) in
    ((exists fc fitted, result = (Some fc, Some fitted, None)) \/
     (exists e, failed e)) /\
    (forall e, ES time_series (model_config (List.length time_series)) = inl e ->
               failed e) /\
    (forall model e,
        ES time_series (model_config (List.length time_series)) = inr model ->
        fit model = inl e -> failed e) /\
    (forall model fitted e,
        ES time_series (model_config (List.length time_series)) = inr model ->
        fit model = inr fitted ->
        forecast fitted h = inl e -> failed e).
Proof.
  intros Model FittedModel ES fit forecast time_series h result failed.
  subst result failed. unfold generate_forecast.
  repeat split.
  - destruct (generate_forecast_try ES fit forecast time_series h)
      as [e | [fc fitted]].
    + right. exists e. reflexivity.
    + left. exists fc, fitted. reflexivity.
  - intros e HES. unfold generate_forecast_try. rewrite HES. reflexivity.
  - intros model e HES Hfit. unfold generate_forecast_try.
    rewrite HES. simpl. rewrite Hfit. reflexivity.
  - intros model fitted e HES Hfit Hfc. unfold generate_forecast_try.
    rewrite HES. simpl. rewrite Hfit. simpl. rewrite Hfc. reflexivity.
Qed.

(** *** The forecast index *)

Lemma month_index_of_month_index (i : Z) (d tod : Z) :
  month_index (mkTs (fst (of_month_index i)) (snd (of_month_index i)) d tod) = i.
Proof.
  unfold month_index, of_month_index. simpl.
  pose proof (Z.div_mod i 12 ltac:(lia)). lia.
Qed.

Lemma month_index_month_start_after (t : Timestamp) (k : Z) :
  month_index (month_start_after t k) = (month_index t + k)%Z.
Proof.
  unfold month_start_after.
  destruct (of_month_index (month_index t + k)) as [y m] eqn:E.
  replace y with (fst (of_month_index (month_index t + k))) by (rewrite E; reflexivity).
  replace m with (snd (of_month_index (month_index t + k))) by (rewrite E; reflexivity).
  apply month_index_of_month_index.
Qed.

Lemma month_begin_next_month_start_after (t : Timestamp) (k : Z) :
  month_begin_next (month_start_after t k) = month_start_after t (k + 1).
Proof.
  unfold month_begin_next.
  rewrite month_index_month_start_after.
  unfold month_start_after at 2.
  replace (month_index t + (k + 1))%Z with (month_index t + k + 1)%Z by lia.
  destruct (of_month_index (month_index t + k + 1)) as [y m].
  reflexivity.
Qed.

Lemma generate_range_month_starts (t : Timestamp) (h : nat) (k : Z) :
  generate_range (month_start_after t k) h = month_starts_from t k h.
Proof.
  revert k. induction h as [| h IH]; intros k; [reflexivity |].
  unfold month_starts_from. simpl.
  rewrite Z.add_0_r. f_equal.
  rewrite month_begin_next_month_start_after, IH.
  unfold month_starts_from.
  rewrite <- seq_shift, map_map.
  apply map_ext. intros a. f_equal. lia.
Qed.

Lemma days_in_month_ge_28 (y m : Z) : (28 <= days_in_month y m)%Z.
Proof.
  unfold days_in_month.
  destruct (m =? 2)%Z; [destruct (is_leap y); lia |].
  destruct ((m =? 4) || (m =? 6) || (m =? 9) || (m =? 11))%Z; lia.
Qed.

Lemma month_index_date_offset_months (t : Timestamp) (k : Z) :
  month_index (date_offset_months k t) = (month_index t + k)%Z.
Proof.
  unfold date_offset_months, of_month_index.
  unfold month_index at 1. simpl.
  pose proof (Z.div_mod (month_index t + k) 12 ltac:(lia)). lia.
Qed.

(** The index built by [generate_forecast] from the last historical date:
    month starts from the following month when that date is itself a month
    start, and from the month after the following one otherwise. *)
Lemma forecast_dates_from_last (last : Timestamp) (h : nat) :
  (1 <= ts_day last)%Z ->
  date_range_MS (date_offset_months 1 last) h
  = month_starts_from last (if (ts_day last =? 1)%Z then 1 else 2) h.
Proof.
  intros Hday.
  unfold date_range_MS, month_begin_rollforward, month_begin_on_offset.
  assert (Hoff : date_offset_months 1 last
                 = mkTs (ts_year (month_start_after last 1))
                        (ts_month (month_start_after last 1))
                        (Z.min (ts_day last)
                               (days_in_month (ts_year (month_start_after last 1))
                                              (ts_month (month_start_after last 1))))
                        (ts_tod last)).
  { unfold date_offset_months, month_start_after.
    destruct (of_month_index (month_index last + 1)); reflexivity. }
  pose proof (days_in_month_ge_28 (ts_year (month_start_after last 1))
                                  (ts_month (month_start_after last 1))) as Hdim.
  destruct (ts_day last =? 1)%Z eqn:E1.
  - apply Z.eqb_eq in E1.
    assert (Hs : date_offset_months 1 last = month_start_after last 1).
    { rewrite Hoff, E1. rewrite Z.min_l by lia.
      unfold month_start_after.
      destruct (of_month_index (month_index last + 1)); reflexivity. }
    rewrite Hs.
    replace (ts_day (month_start_after last 1) =? 1)%Z with true.
    + apply generate_range_month_starts.
    + unfold month_start_after.
      destruct (of_month_index (month_index last + 1)); reflexivity.
  - apply Z.eqb_neq in E1.
    replace (ts_day (date_offset_months 1 last) =? 1)%Z with false.
    + replace (month_begin_next (date_offset_months 1 last))
        with (month_start_after last 2).
      * apply generate_range_month_starts.
      * unfold month_begin_next. rewrite month_index_date_offset_months.
        unfold month_start_after.
        replace (month_index last + 1 + 1)%Z with (month_index last + 2)%Z by lia.
        reflexivity.
    + symmetry. apply Z.eqb_neq. rewrite Hoff. cbn [ts_day]. lia.
Qed.

Lemma map_fst_combine {A B} (xs : list A) (ys : list B) :
  List.length xs <= List.length ys -> map fst (combine xs ys) = xs.
Proof.
  revert ys. induction xs as [| x xs IH]; intros [| y ys] Hlen; simpl in *;
    try reflexivity; try lia.
  f_equal. apply IH. lia.
Qed.

Lemma last_item_snoc {A} (xs : list A) (x : A) : last_item (xs ++ [x]) = inr x.
Proof. unfold last_item. rewrite rev_app_distr. reflexivity. Qed.

(** Every successful forecast has exactly [h] points, dated by consecutive
    month starts; the first one is the month after the last historical
    date when that date is a month start, and one month later otherwise. *)
Theorem forecast_dates_of_success :
  forall (Model FittedModel : Type)
         (ES : Series -> ModelConfig -> Exc.t Model)
         (fit : Model -> Exc.t FittedModel)
         (forecast : FittedModel -> nat -> Exc.t (list Q))
         (history : Series) (last : Timestamp) (v : Q) (h : nat)
         (fc : Series) (fitted : FittedModel),
    (1 <= ts_day last)%Z ->
    generate_forecast ES fit forecast (history ++ [(last, v)]) h
    = (Some fc, Some fitted, None) ->
    List.length fc = h /\
    series_index fc
    = month_starts_from last (if (ts_day last =? 1)%Z then 1 else 2) h.
Proof.
  intros Model FittedModel ES fit forecast history last v h fc fitted Hday.
  unfold generate_forecast, generate_forecast_try, forecast_index.
  destruct (ES _ _) as [e | model]; simpl; [discriminate |].
  destruct (fit model) as [e | fm]; simpl; [discriminate |].
  destruct (forecast fm h) as [e | vals]; simpl; [discriminate |].
  unfold series_index at 1. rewrite map_app. simpl map.
  rewrite last_item_snoc. simpl.
  unfold set_index.
  destruct (Nat.eqb (List.length vals) _) eqn:El; simpl; [| discriminate].
  intros H. inversion H; subst. clear H.
  apply Nat.eqb_eq in El.
  rewrite forecast_dates_from_last in * by assumption.
  assert (Hlen : List.length
                   (month_starts_from last (if (ts_day last =? 1)%Z then 1 else 2) h) = h).
  { unfold month_starts_from. now rewrite length_map, length_seq. }
  split.
  - rewrite length_combine. lia.
  - unfold series_index. apply map_fst_combine. lia.
Qed.

Lemma forecast_dates_of_success_witness :
  let fc := combine (month_starts_from (Demo.date 2024 6 1) 1 3) (repeat (150 # 1)%Q 3) in
  List.length fc = 3 /\
  series_index fc = month_starts_from (Demo.date 2024 6 1) 1 3.
Proof.
  apply (@forecast_dates_of_success
           Demo.Model Demo.Model Demo.smoothing Demo.fit Demo.forecast
           (firstn 5 Demo.monthly) (Demo.date 2024 6 1) (150 # 1)%Q 3
           _ (Demo.monthly, model_config 6)).
  - simpl. lia.
  - reflexivity.
Defined.

(** C2. On the dates of the bundled sample data, whose last timestamp is
    2024-11-21, a successful six-month forecast is dated 2025-01-01 to
    2025-06-01: it has six consecutive month starts, but the first is not
    the first day of the month following the last historical timestamp
    (2024-12-01); December 2024 is skipped. *)
Theorem C2_forecast_skips_month_after_mid_month_date :
  option_map series_index
    (fst (fst (generate_forecast Demo.smoothing Demo.fit Demo.forecast
                                 Demo.sample_tail 6)))
  = Some [Demo.date 2025 1 1; Demo.date 2025 2 1; Demo.date 2025 3 1;
          Demo.date 2025 4 1; Demo.date 2025 5 1; Demo.date 2025 6 1]
  /\ last_item (series_index Demo.sample_tail) = inr (Demo.date 2024 11 21)
  /\ spec_forecast_dates (Demo.date 2024 11 21) 6
     = [Demo.date 2024 12 1; Demo.date 2025 1 1; Demo.date 2025 2 1;
        Demo.date 2025 3 1; Demo.date 2025 4 1; Demo.date 2025 5 1].
Proof. repeat split; reflexivity. Qed.

(* ------------------------------------------------------------------ *)
(** ** Column Classifier: properties *)

Lemma Qgtb_lt (a b : Q) : Qgtb a b = true <-> (b < a)%Q.
Proof.
  unfold Qgtb. rewrite negb_true_iff.
  split.
  - intros H. apply Qnot_le_lt. intros Hle.
    apply Qle_bool_iff in Hle. congruence.
  - intros H. destruct (Qle_bool a b) eqn:E; [| reflexivity].
    apply Qle_bool_iff in E. exfalso. exact (Qlt_not_le _ _ H E).
Qed.

(** The threshold test, in whole numbers. *)
Lemma valid_ratio_above_threshold (valid total : nat) :
  valid <= total ->
  (Qgtb (valid_ratio valid total) (8 # 10) = true <-> 80 * total < 100 * valid).
Proof.
  intros Hle. rewrite Qgtb_lt. unfold valid_ratio.
  destruct total as [| n].
  - assert (valid = 0) by lia. subst. split; [discriminate | lia].
  - assert (Hpos : (0 < inject_Z (Z.of_nat (S n)))%Q).
    { unfold Qlt, inject_Z. simpl. lia. }
    assert (Hne : ~ (inject_Z (Z.of_nat (S n)) == 0)%Q).
    { intros E. rewrite E in Hpos. exact (Qlt_irrefl _ Hpos). }
    rewrite <- (Qmult_lt_r _ _ _ Hpos).
    setoid_replace (inject_Z (Z.of_nat valid) / inject_Z (Z.of_nat (S n))
                    * inject_Z (Z.of_nat (S n)))%Q
      with (inject_Z (Z.of_nat valid)) by (field; exact Hne).
    unfold Qlt, Qmult, inject_Z. cbn [Qnum Qden].
    split; intros H; lia.
Qed.

Lemma notna_count_le {A} (xs : list (option A)) : notna_count xs <= List.length xs.
Proof.
  unfold notna_count.
  induction xs as [| [a |] xs IH]; simpl; lia.
Qed.

Lemma hd_error_map_filter {A B} (f : A -> B) (p : A -> bool) (xs : list A) :
  hd_error (map f (filter p xs)) = option_map f (find p xs).
Proof.
  induction xs as [| x xs IH]; simpl; [reflexivity |].
  destruct (p x); [reflexivity | exact IH].
Qed.

Section ClassifierFacts.

Variable strptime_ok : string -> Cell -> bool.
Variable to_datetime_entry :
  option string -> list (option Cell) -> Cell -> option Timestamp.

Let candidate := date_candidate strptime_ok to_datetime_entry.
Let detect := detect_date_column strptime_ok to_datetime_entry.

Lemma length_to_datetime_coerce (fmt : option string) (series : ColData) :
  List.length (to_datetime_coerce to_datetime_entry fmt series)
  = List.length (col_cells series).
Proof.
  unfold to_datetime_coerce, to_datetime_entries.
  destruct series; simpl; now rewrite !length_map.
Qed.

(** A numeric column is skipped whatever its values are. *)
Lemma numeric_column_never_candidate (df : DataFrame) (col : Column) :
  is_numeric_dtype (col_data col) = true -> candidate df col = false.
Proof.
  unfold candidate, date_candidate.
  destruct (col_data col) as [xs | xs | xs]; try discriminate.
  intros _. now destruct (forallb _ _).
Qed.

(** The loop appends the candidates to the two lists in column order. *)
Lemma detect_date_loop_filter (df : DataFrame) (cols : list Column) :
  forall keyword_matches date_columns,
    detect_date_loop strptime_ok to_datetime_entry df cols keyword_matches date_columns
    = (keyword_matches
         ++ map col_name (filter (fun c => candidate df c && is_keyword_match c) cols),
       date_columns
         ++ map col_name
              (filter (fun c => candidate df c && negb (is_keyword_match c)) cols)).
Proof.
  induction cols as [| col rest IH]; intros km dc; simpl.
  - now rewrite !app_nil_r.
  - fold (candidate df col).
    destruct (candidate df col); simpl.
    + destruct (is_keyword_match col); simpl; rewrite IH.
      * now rewrite <- app_assoc.
      * now rewrite <- app_assoc.
    + apply IH.
Qed.

(** First keyword-named candidate, else first candidate. *)
Lemma detect_date_column_find (df : DataFrame) :
  detect df
  = match find (fun c => candidate df c && is_keyword_match c) (df_columns df) with
    | Some c => Some (col_name c)
    | None =>
        option_map col_name
          (find (fun c => candidate df c && negb (is_keyword_match c)) (df_columns df))
    end.
Proof.
  unfold detect, detect_date_column.
  rewrite detect_date_loop_filter. simpl.
  destruct (find (fun c => candidate df c && is_keyword_match c) (df_columns df))
    as [c |] eqn:E.
  - pose proof (hd_error_map_filter col_name
                  (fun c => candidate df c && is_keyword_match c) (df_columns df)) as H.
    rewrite E in H. simpl in H.
    destruct (map col_name (filter _ (df_columns df))) as [| n ns]; [discriminate |].
    simpl in *. exact H.
  - pose proof (hd_error_map_filter col_name
                  (fun c => candidate df c && is_keyword_match c) (df_columns df)) as H.
    rewrite E in H. simpl in H.
    destruct (map col_name (filter (fun c => candidate df c && is_keyword_match c)
                                   (df_columns df))) as [| n ns]; [| discriminate].
    simpl. apply hd_error_map_filter.
Qed.

(** C6 (amended). A column of object dtype is taken as a date candidate
    exactly when strictly more than 80% of the entries of the full column
    parse as dates, under the inferred format when there is one and under
    generic parsing otherwise; at exactly 80% it is not taken. *)
Theorem C6_candidate_iff_more_than_80_percent :
  forall (df : DataFrame) (name : string) (xs : list (option Cell)),
    List.length xs = df_nrows df ->
    let parsed :=
      to_datetime_coerce to_datetime_entry
        (infer_date_format strptime_ok (ObjectCol xs)) (ObjectCol xs) in
    candidate df (mkCol name (ObjectCol xs)) = true
    <-> 80 * List.length xs < 100 * notna_count parsed.
Proof.
  intros df name xs Hlen parsed.
  unfold candidate, date_candidate. simpl col_data. fold parsed.
  rewrite Hlen. apply valid_ratio_above_threshold.
  rewrite <- Hlen.
  pose proof (notna_count_le parsed) as Hle.
  unfold parsed in Hle at 2. rewrite length_to_datetime_coerce in Hle.
  exact Hle.
Qed.

(** C7. When some column both qualifies as a date column and carries a
    date keyword in its name, the first such column in column order is
    returned, wherever the qualifying columns without a keyword stand. *)
Theorem C7_keyword_column_preferred :
  forall df : DataFrame,
    existsb (fun c => candidate df c && is_keyword_match c) (df_columns df) = true ->
    exists c,
      find (fun c => candidate df c && is_keyword_match c) (df_columns df) = Some c /\
      candidate df c = true /\ is_keyword_match c = true /\
      detect df = Some (col_name c).
Proof.
  intros df Hex.
  rewrite detect_date_column_find.
  destruct (find (fun c => candidate df c && is_keyword_match c) (df_columns df))
    as [c |] eqn:E.
  - exists c. apply find_some in E. destruct E as [_ E].
    apply andb_true_iff in E. destruct E. auto.
  - apply existsb_exists in Hex. destruct Hex as [c [Hin Hc]].
    pose proof (find_none _ _ E c Hin) as Hn. simpl in Hn. congruence.
Qed.

(** C10. The detected date column is never of numeric dtype: a numeric
    column is skipped whether or not its sample lies in [1900, 2100]. *)
Theorem C10_numeric_column_never_detected :
  forall (df : DataFrame) (name : string),
    detect df = Some name ->
    exists c,
      In c (df_columns df) /\ col_name c = name /\
      candidate df c = true /\ is_numeric_dtype (col_data c) = false.
Proof.
  intros df name. rewrite detect_date_column_find.
  destruct (find (fun c => candidate df c && is_keyword_match c) (df_columns df))
    as [c |] eqn:E.
  - intros H. inversion H; subst. exists c.
    apply find_some in E. destruct E as [Hin E].
    apply andb_true_iff in E. destruct E as [Hc _].
    repeat split; auto.
    destruct (is_numeric_dtype (col_data c)) eqn:En; [| reflexivity].
    rewrite (numeric_column_never_candidate df c En) in Hc. discriminate.
  - destruct (find (fun c => candidate df c && negb (is_keyword_match c))
                   (df_columns df)) as [c |] eqn:E'; simpl; [| discriminate].
    intros H. inversion H; subst. exists c.
    apply find_some in E'. destruct E' as [Hin E'].
    apply andb_true_iff in E'. destruct E' as [Hc _].
    repeat split; auto.
    destruct (is_numeric_dtype (col_data c)) eqn:En; [| reflexivity].
    rewrite (numeric_column_never_candidate df c En) in Hc. discriminate.
Qed.

End ClassifierFacts.

Lemma C6_candidate_iff_more_than_80_percent_witness :
  date_candidate Demo.strptime_ok Demo.to_datetime_entry Demo.invoices
    (mkCol "Booked" (ObjectCol
       [ Some (CStr "2024-01-05"); Some (CStr "2024-02-05"); Some (CStr "2024-03-05") ]))
  = true
  <-> 80 * 3 < 100 * 3.
Proof.
  apply (@C6_candidate_iff_more_than_80_percent
           Demo.strptime_ok Demo.to_datetime_entry Demo.invoices "Booked"
           [ Some (CStr "2024-01-05"); Some (CStr "2024-02-05"); Some (CStr "2024-03-05") ]).
  reflexivity.
Defined.

(** C6, as stated, fails at exactly 80%: four of the five entries of the
    column parse, and the column is not a candidate. *)
Lemma C6_exactly_80_percent_rejected :
  notna_count
    (to_datetime_coerce Demo.to_datetime_entry
       (infer_date_format Demo.strptime_ok (col_data Demo.booked))
       (col_data Demo.booked)) = 4
  /\ col_len Demo.booked = 5
  /\ df_nrows Demo.four_of_five = 5
  /\ 80 * 5 <= 100 * 4
  /\ date_candidate Demo.strptime_ok Demo.to_datetime_entry
       Demo.four_of_five Demo.booked = false
  /\ detect_date_column Demo.strptime_ok Demo.to_datetime_entry Demo.four_of_five = None.
Proof. repeat split; reflexivity. Qed.

Lemma C7_keyword_column_preferred_witness :
  exists c,
    find (fun c => date_candidate Demo.strptime_ok Demo.to_datetime_entry Demo.invoices c
                   && is_keyword_match c) (df_columns Demo.invoices) = Some c /\
    date_candidate Demo.strptime_ok Demo.to_datetime_entry Demo.invoices c = true /\
    is_keyword_match c = true /\
    detect_date_column Demo.strptime_ok Demo.to_datetime_entry Demo.invoices
    = Some (col_name c).
Proof.
  apply (@C7_keyword_column_preferred
           Demo.strptime_ok Demo.to_datetime_entry Demo.invoices).
  reflexivity.
Defined.

Lemma C10_numeric_column_never_detected_witness :
  exists c,
    In c (df_columns Demo.invoices) /\ col_name c = "Invoice Date" /\
    date_candidate Demo.strptime_ok Demo.to_datetime_entry Demo.invoices c = true /\
    is_numeric_dtype (col_data c) = false.
Proof.
  apply (@C10_numeric_column_never_detected
           Demo.strptime_ok Demo.to_datetime_entry Demo.invoices "Invoice Date").
  reflexivity.
Defined.

(* ------------------------------------------------------------------ *)
(** ** Series Builder: properties *)

Lemma ts_compare_antisym (a b : Timestamp) :
  ts_compare b a = CompOpp (ts_compare a b).
Proof.
  unfold ts_compare.
  rewrite (Z.compare_antisym (ts_year a) (ts_year b)),
          (Z.compare_antisym (ts_month a) (ts_month b)),
          (Z.compare_antisym (ts_day a) (ts_day b)),
          (Z.compare_antisym (ts_tod a) (ts_tod b)).
  destruct (ts_year a ?= ts_year b)%Z, (ts_month a ?= ts_month b)%Z,
           (ts_day a ?= ts_day b)%Z, (ts_tod a ?= ts_tod b)%Z; reflexivity.
Qed.

Lemma ts_leb_total (a b : Timestamp) : ts_leb a b = false -> ts_le b a.
Proof.
  unfold ts_le, ts_leb. rewrite (ts_compare_antisym a b).
  destruct (ts_compare a b); simpl; congruence.
Qed.

Lemma insert_row_sorted (r : Timestamp * Q) (rows : Series) :
  Sorted ts_le (series_index rows) ->
  Sorted ts_le (series_index (insert_row r rows)).
Proof.
  unfold series_index.
  induction rows as [| x rows IH]; intros Hs; simpl.
  - repeat constructor.
  - destruct (ts_leb (fst r) (fst x)) eqn:E; simpl.
    + constructor; [exact Hs |]. constructor. exact E.
    + inversion Hs as [| ? ? Hs' Hhd]; subst.
      constructor; [apply IH; exact Hs' |].
      destruct rows as [| y rows]; simpl.
      * constructor. apply ts_leb_total. exact E.
      * destruct (ts_leb (fst r) (fst y)); simpl; constructor.
        -- apply ts_leb_total. exact E.
        -- inversion Hhd; subst. assumption.
Qed.

Lemma sort_values_sorted (rows : Series) :
  Sorted ts_le (series_index (sort_values rows)).
Proof.
  unfold sort_values.
  induction rows as [| r rows IH]; simpl.
  - constructor.
  - apply insert_row_sorted. exact IH.
Qed.

Lemma insert_row_perm (r : Timestamp * Q) (rows : Series) :
  Permutation (r :: rows) (insert_row r rows).
Proof.
  induction rows as [| x rows IH]; simpl; [reflexivity |].
  destruct (ts_leb (fst r) (fst x)); [reflexivity |].
  rewrite perm_swap. now apply perm_skip.
Qed.

Lemma sort_values_perm (rows : Series) : Permutation rows (sort_values rows).
Proof.
  unfold sort_values.
  induction rows as [| r rows IH]; simpl; [reflexivity |].
  rewrite <- insert_row_perm. now apply perm_skip.
Qed.

Section SeriesBuilderFacts.

Variable strptime_ok : string -> Cell -> bool.
Variable to_datetime_entry :
  option string -> list (option Cell) -> Cell -> option Timestamp.
Variable numeric_of_string : string -> option Q.
Variable epoch_ns : Timestamp -> Q.

Let validate := validate_columns to_datetime_entry numeric_of_string epoch_ns.
Let prepare :=
  prepare_time_series strptime_ok to_datetime_entry numeric_of_string epoch_ns.

(** Validation never succeeds on a table of fewer than six rows. *)
Lemma validate_columns_short (df : DataFrame) (date_col value_col : string) :
  df_nrows df < 6 ->
  exists msg, validate df date_col value_col = (false, Some msg).
Proof.
  intros Hn. unfold validate, validate_columns.
  destruct (get_column df date_col) as [dc |]; [| eauto].
  destruct (get_column df value_col) as [vc |]; [| eauto].
  destruct (to_datetime_raise _ _ _); [eauto |].
  destruct (negb _ && negb _); [eauto |].
  apply Nat.ltb_lt in Hn. rewrite Hn. eauto.
Qed.

(** C4 (amended). The timestamps of a prepared series are in
    non-decreasing order, and the series holds every row that has both a
    date and a value: rows with equal timestamps are all kept. *)
Theorem C4_prepared_series_sorted_with_duplicates :
  forall (df : DataFrame) (date_col value_col : string) (s : Series),
    prepare df date_col value_col = inr s ->
    Sorted ts_le (series_index s) /\
    exists dc vc dates,
      get_column df date_col = Some dc /\
      get_column df value_col = Some vc /\
      to_datetime_raise to_datetime_entry
        (infer_date_format strptime_ok (col_data dc)) (col_data dc) = inr dates /\
      Permutation
        (dropna_rows
           (combine dates (to_numeric_coerce numeric_of_string epoch_ns (col_data vc))))
        s.
Proof.
  intros df date_col value_col s.
  unfold prepare, prepare_time_series.
  destruct (String.eqb date_col value_col); [discriminate |].
  destruct (get_column df date_col) as [dc |]; [| discriminate].
  destruct (get_column df value_col) as [vc |]; [| discriminate].
  destruct (to_datetime_raise _ _ _) as [e | dates] eqn:Ed; simpl; [discriminate |].
  intros H. inversion H; subst. clear H.
  split.
  - apply sort_values_sorted.
  - exists dc, vc, dates. repeat split; auto.
    apply sort_values_perm.
Qed.

End SeriesBuilderFacts.

(** C3. A table of six rows one of which lacks its value is not rejected
    anywhere: [validate_columns] accepts it, [prepare_time_series] drops
    the incomplete row and returns five points without an error, and the
    generate step of [main] hands those five points to
    [generate_forecast], which fits a model on them.  The message of
    [validate_columns] and the notices of [main] ask for six points. *)
Theorem C3_five_points_reach_the_forecast :
  aligned Demo.six_rows_one_gap = true
  /\ validate_columns Demo.to_datetime_entry Demo.numeric_of_string Demo.epoch_ns
       Demo.six_rows_one_gap "Date" "Revenue" = (true, None)
  /\ prepare_time_series Demo.strptime_ok Demo.to_datetime_entry
       Demo.numeric_of_string Demo.epoch_ns Demo.six_rows_one_gap "Date" "Revenue"
     = inr Demo.five_points
  /\ List.length Demo.five_points = 5
  /\ exists fc,
       main_generate Demo.strptime_ok Demo.to_datetime_entry Demo.numeric_of_string
         Demo.epoch_ns Demo.smoothing Demo.fit Demo.forecast
         Demo.six_rows_one_gap "Date" "Revenue" 3
       = inr (Some (Demo.five_points,
                    (Some fc, Some (Demo.five_points, model_config 5), None))).
Proof.
  repeat split; try reflexivity.
  eexists. reflexivity.
Qed.

Definition repeated_date_series : Series :=
  [ (Demo.date 2024 1 1, 100 # 1); (Demo.date 2024 2 1, 110 # 1);
    (Demo.date 2024 2 1, 115 # 1); (Demo.date 2024 3 1, 120 # 1);
    (Demo.date 2024 4 1, 130 # 1); (Demo.date 2024 5 1, 140 # 1) ]%Q.

Lemma C4_prepared_series_sorted_with_duplicates_witness :
  Sorted ts_le (series_index repeated_date_series) /\
  exists dc vc dates,
    get_column Demo.repeated_date "Date" = Some dc /\
    get_column Demo.repeated_date "Revenue" = Some vc /\
    to_datetime_raise Demo.to_datetime_entry
      (infer_date_format Demo.strptime_ok (col_data dc)) (col_data dc) = inr dates /\
    Permutation
      (dropna_rows
         (combine dates
            (to_numeric_coerce Demo.numeric_of_string Demo.epoch_ns (col_data vc))))
      repeated_date_series.
Proof.
  apply (@C4_prepared_series_sorted_with_duplicates
           Demo.strptime_ok Demo.to_datetime_entry Demo.numeric_of_string Demo.epoch_ns
           Demo.repeated_date "Date" "Revenue" repeated_date_series).
  reflexivity.
Defined.

(** C4, as stated, fails on a table with a repeated date: both rows are
    kept, so the timestamps are not strictly increasing. *)
Lemma C4_repeated_date_kept :
  prepare_time_series Demo.strptime_ok Demo.to_datetime_entry Demo.numeric_of_string
    Demo.epoch_ns Demo.repeated_date "Date" "Revenue" = inr repeated_date_series
  /\ strictly_increasing (series_index repeated_date_series) = false.
Proof. split; reflexivity. Qed.

(* ------------------------------------------------------------------ *)
(** ** Metrics: properties *)

Lemma series_mean_times_length (s : Series) (r : Timestamp * Q) :
  exists a,
    series_mean (s ++ [r]) = Some a /\
    (a * inject_Z (Z.of_nat (List.length (s ++ [r]))) == series_sum (s ++ [r]))%Q.
Proof.
  assert (Hne : ~ (inject_Z (Z.of_nat (List.length (s ++ [r]))) == 0)%Q).
  { rewrite length_app. simpl. unfold Qeq, inject_Z. simpl. lia. }
  destruct (s ++ [r]) as [| x xs] eqn:E.
  - destruct s; discriminate.
  - eexists. split; [reflexivity |]. field. exact Hne.
Qed.

(** C5. For a history and a forecast that are not empty, the metrics are:
    totals that are the sums of the values, averages that are arithmetic
    means (average times count is the total), the number of forecast
    points, and a growth rate equal to (last forecast - last history) /
    last history * 100 when the last historical value is not zero.  When it
    is zero the division is carried out all the same and the growth rate is
    not a finite number. *)
Theorem C5_metrics_formulas :
  forall (h0 : Series) (th : Timestamp) (lh : Q)
         (f0 : Series) (tf : Timestamp) (lf : Q),
    let history := h0 ++ [(th, lh)] in
    let fc := f0 ++ [(tf, lf)] in
    exists m,
      calculate_metrics history fc = inr m /\
      projected_total m = Qsum (series_values fc) /\
      historical_total m = Qsum (series_values history) /\
      forecast_periods m = List.length fc /\
      (exists a, historical_avg m = Some a /\
                 (a * inject_Z (Z.of_nat (List.length history))
                  == Qsum (series_values history))%Q) /\
      (exists a, forecast_avg m = Some a /\
                 (a * inject_Z (Z.of_nat (List.length fc))
                  == Qsum (series_values fc))%Q) /\
      (~ (lh == 0)%Q ->
       growth_rate m = Some ((lf - lh) / lh * 100)%Q) /\
      ((lh == 0)%Q -> growth_rate m = None).
Proof.
  intros h0 th lh f0 tf lf history fc.
  unfold calculate_metrics.
  unfold series_values at 1 2. subst history fc.
  rewrite !map_app. simpl map. rewrite !last_item_snoc. simpl.
  eexists. split; [reflexivity |]. simpl.
  repeat split.
  - apply series_mean_times_length.
  - apply series_mean_times_length.
  - intros Hne. unfold float_div.
    destruct (Qeq_bool lh 0) eqn:E; [| reflexivity].
    apply Qeq_bool_iff in E. contradiction.
  - intros Hz. unfold float_div.
    apply Qeq_bool_iff in Hz. now rewrite Hz.
Qed.

(* ------------------------------------------------------------------ *)
(** ** CSV export: properties *)

Lemma append_assoc_string (a b c : string) :
  ((a ++ b) ++ c = a ++ (b ++ c))%string.
Proof. induction a as [| x a IH]; simpl; [reflexivity | now rewrite IH]. Qed.

Lemma concat_lines_app (xs ys : list string) :
  concat_lines (xs ++ ys) = (concat_lines xs ++ concat_lines ys)%string.
Proof.
  unfold concat_lines.
  induction xs as [| x xs IH]; simpl; [reflexivity |].
  now rewrite IH, append_assoc_string.
Qed.

Lemma frame_rows_three {X} (a b c : X -> string) (rs : list X) :
  frame_rows (List.length rs) [map a rs; map b rs; map c rs]
  = map (fun x => [a x; b x; c x]) rs.
Proof.
  induction rs as [| r rs IH]; simpl; [reflexivity |].
  f_equal. exact IH.
Qed.

Lemma mentions_app (c : ascii) (s t : string) :
  mentions c (s ++ t) = mentions c s || mentions c t.
Proof.
  induction s as [| x s IH]; simpl; [reflexivity |].
  now rewrite IH, orb_assoc.
Qed.

Definition csv_special (c : ascii) : Prop :=
  c = ","%char \/ c = quote_char \/ c = ascii_of_nat 10 \/ c = ascii_of_nat 13.

Lemma digit_not_special (c : ascii) (n : nat) :
  csv_special c -> Ascii.eqb c (digit n) = false.
Proof.
  intros Hc. unfold digit.
  pose proof (Nat.mod_upper_bound n 10 ltac:(lia)) as Hlt.
  destruct (n mod 10) as [| [| [| [| [| [| [| [| [| [| k]]]]]]]]]];
    try lia;
    destruct Hc as [-> | [-> | [-> | ->]]]; reflexivity.
Qed.

Lemma strftime_dmy_plain (c : ascii) (t : Timestamp) :
  csv_special c -> mentions c (strftime_dmy t) = false.
Proof.
  intros Hc. unfold strftime_dmy, pad4, pad2.
  rewrite !mentions_app. simpl.
  rewrite !(digit_not_special _ Hc).
  destruct Hc as [-> | [-> | [-> | ->]]]; reflexivity.
Qed.

Lemma csv_quote_strftime_dmy (t : Timestamp) :
  csv_quote (strftime_dmy t) = strftime_dmy t.
Proof.
  unfold csv_quote.
  rewrite !strftime_dmy_plain; [reflexivity | | | |]; unfold csv_special; auto.
Qed.

Lemma map_repeat_const {X Y} (y : Y) (xs : list X) :
  repeat y (List.length xs) = map (fun _ => y) xs.
Proof. induction xs as [| x xs IH]; simpl; [reflexivity | now rewrite IH]. Qed.

Section ExportFacts.

Variable repr_float : Q -> string.
Variable str_timestamp : Timestamp -> string.
Variable timestamp_of_ns : Q -> Timestamp.

Let export := create_download_csv repr_float str_timestamp timestamp_of_ns.

(** Away from the two fixed labels the export is the history rows in
    order, then the forecast rows in order, under the header
    Date, value column name, Type. *)
Theorem export_rows_when_labels_distinct :
  forall (historical_data forecast_data : Series) (value_col_name : string),
    value_col_name <> "Date" ->
    value_col_name <> "Type" ->
    export historical_data forecast_data value_col_name
    = export_spec repr_float historical_data forecast_data value_col_name.
Proof.
  intros h f name HD HT.
  assert (E1 : String.eqb "Date" name = false).
  { apply String.eqb_neq. congruence. }
  assert (E2 : String.eqb name "Type" = false).
  { apply String.eqb_neq. exact HT. }
  assert (E3 : String.eqb name "Date" = false).
  { apply String.eqb_neq. exact HD. }
  unfold export, create_download_csv, combined_frame, dict_literal.
  cbn [fold_left fst snd dict_set].
  rewrite E1. cbn [dict_set String.eqb Ascii.eqb Bool.eqb fst snd].
  rewrite E2. cbn [update_date_column map fst snd String.eqb Ascii.eqb Bool.eqb].
  rewrite E3. cbn [format_dates].
  unfold to_csv, export_spec. cbn [map fst snd render_col].
  f_equal.
  set (rows := map (fun r => (r, "Historical")) h ++ map (fun r => (r, "Forecast")) f).
  assert (Hlen : List.length h + List.length f = List.length rows).
  { unfold rows. now rewrite length_app, !length_map. }
  assert (Hc1 : map csv_quote (map strftime_dmy (series_index h ++ series_index f))
                = map (fun x : Timestamp * Q * string => strftime_dmy (fst (fst x))) rows).
  { unfold rows, series_index. rewrite !map_app, !map_map.
    f_equal; apply map_ext; intros a; apply csv_quote_strftime_dmy. }
  assert (Hc2 : map repr_float (series_values h ++ series_values f)
                = map (fun x : Timestamp * Q * string => repr_float (snd (fst x))) rows).
  { unfold rows, series_values. now rewrite !map_app, !map_map. }
  assert (Hc3 : map csv_quote (repeat "Historical" (List.length h)
                               ++ repeat "Forecast" (List.length f))
                = map (fun x : Timestamp * Q * string => snd x) rows).
  { unfold rows. rewrite !map_repeat_const, !map_app, !map_map. reflexivity. }
  rewrite Hc1, Hc2, Hc3, Hlen, frame_rows_three.
  unfold rows. rewrite !map_app, concat_lines_app, !map_map. reflexivity.
Qed.

End ExportFacts.

Lemma export_rows_when_labels_distinct_witness :
  create_download_csv Demo.repr_float Demo.str_timestamp Demo.timestamp_of_ns
    Demo.history_tail Demo.one_step "Revenue"
  = export_spec Demo.repr_float Demo.history_tail Demo.one_step "Revenue".
Proof.
  apply (@export_rows_when_labels_distinct
           Demo.repr_float Demo.str_timestamp Demo.timestamp_of_ns
           Demo.history_tail Demo.one_step "Revenue"); discriminate.
Defined.

(** C8. With a value column labelled Type, the dict display from which the
    frame is built holds the key Type twice and keeps the later entry: the
    export has the two columns Date and Type and no values, where the
    interface description has three columns. *)
Theorem C8_value_column_lost_when_labelled_type :
  create_download_csv Demo.repr_float Demo.str_timestamp Demo.timestamp_of_ns
    Demo.history_tail Demo.one_step "Type"
  = (csv_line ["Date"; "Type"]
     ++ csv_line ["01/05/2024"; "Historical"]
     ++ csv_line ["01/06/2024"; "Historical"]
     ++ csv_line ["01/07/2024"; "Forecast"])%string
  /\ export_spec Demo.repr_float Demo.history_tail Demo.one_step "Type"
     = (csv_line ["Date"; "Type"; "Type"]
        ++ csv_line ["01/05/2024"; "140.0"; "Historical"]
        ++ csv_line ["01/06/2024"; "150.0"; "Historical"]
        ++ csv_line ["01/07/2024"; "155.0"; "Forecast"])%string.
Proof. split; reflexivity. Qed.

(* ------------------------------------------------------------------ *)
(** ** Worked examples *)

Example model_config_23 : model_config 23 = damped_trend_only.
Proof. reflexivity. Qed.

Example model_config_24 : model_config 24 = seasonal_damped_trend.
Proof. reflexivity. Qed.

Example model_config_11 : model_config 11 = simple_trend.
Proof. reflexivity. Qed.

Example constructor_failure_is_reported :
  generate_forecast Demo.broken_smoothing Demo.fit Demo.forecast Demo.monthly 3
  = (None, None,
     Some "Forecasting error: Cannot compute initial seasonals using heuristic method").
Proof. reflexivity. Qed.

Example empty_series_is_reported :
  generate_forecast Demo.smoothing Demo.fit Demo.forecast [] 3
  = (None, None,
     Some "Forecasting error: index -1 is out of bounds for axis 0 with size 0").
Proof. reflexivity. Qed.

Example forecast_after_month_start :
  option_map series_index
    (fst (fst (generate_forecast Demo.smoothing Demo.fit Demo.forecast Demo.monthly 3)))
  = Some (spec_forecast_dates (Demo.date 2024 6 1) 3).
Proof. reflexivity. Qed.

Example end_of_january_plus_one_month :
  date_offset_months 1 (Demo.date 2024 1 31) = Demo.date 2024 2 29.
Proof. reflexivity. Qed.

Example keyword_match_ignores_case :
  is_keyword_match (mkCol "Invoice DATE" (ObjectCol [])) = true
  /\ is_keyword_match (mkCol "Booked" (ObjectCol [])) = false.
Proof. split; reflexivity. Qed.

Example year_column_is_skipped :
  detect_date_column Demo.strptime_ok Demo.to_datetime_entry
    (mkDF 3 [ mkCol "Year" (NumericCol [ Some (2022 # 1); Some (2023 # 1);
                                         Some (2024 # 1) ])%Q ])
  = None.
Proof. reflexivity. Qed.

Example value_column_labelled_date :
  create_download_csv Demo.repr_float Demo.str_timestamp Demo.timestamp_of_ns
    Demo.history_tail Demo.one_step "Date"
  = (csv_line ["Date"; "Type"]
     ++ csv_line ["01/01/1970"; "Historical"]
     ++ csv_line ["01/01/1970"; "Historical"]
     ++ csv_line ["01/01/1970"; "Forecast"])%string.
Proof. reflexivity. Qed.

Example growth_rate_on_zero_history :
  option_map growth_rate
    (match calculate_metrics [(Demo.date 2024 6 1, 0%Q)] Demo.one_step with
     | inr m => Some m
     | inl _ => None
     end)
  = Some None.
Proof. reflexivity. Qed.

(* ------------------------------------------------------------------ *)
(** ** Forecast Engine: further properties *)

Lemma map_snd_combine {A B} (xs : list A) (ys : list B) :
  List.length ys <= List.length xs -> map snd (combine xs ys) = ys.
Proof.
  revert ys. induction xs as [| x xs IH]; intros [| y ys] Hlen; simpl in *;
    try reflexivity; try lia.
  f_equal. apply IH. lia.
Qed.

Lemma length_date_range_MS (start : Timestamp) (h : nat) :
  List.length (date_range_MS start h) = h.
Proof.
  unfold date_range_MS. generalize (month_begin_rollforward start).
  induction h as [| h IH]; intros cur; simpl; [reflexivity | now rewrite IH].
Qed.

(** What a successful call went through. *)
Lemma generate_forecast_success_inv
      (Model FittedModel : Type)
      (ES : Series -> ModelConfig -> Exc.t Model)
      (fit : Model -> Exc.t FittedModel)
      (forecast : FittedModel -> nat -> Exc.t (list Q))
      (time_series : Series) (h : nat) (fc : Series) (fitted : FittedModel) :
  generate_forecast ES fit forecast time_series h = (Some fc, Some fitted, None) ->
  exists model vals last,
    ES time_series (model_config (List.length time_series)) = inr model /\
    fit model = inr fitted /\
    forecast fitted h = inr vals /\
    last_item (series_index time_series) = inr last /\
    List.length vals = h /\
    fc = combine (date_range_MS (date_offset_months 1 last) h) vals.
Proof.
  unfold generate_forecast, generate_forecast_try, forecast_index.
  destruct (ES _ _) as [e | model]; simpl; [discriminate |].
  destruct (fit model) as [e | fm] eqn:Efit; simpl; [discriminate |].
  destruct (forecast fm h) as [e | vals] eqn:Efc; simpl; [discriminate |].
  destruct (last_item (series_index time_series)) as [e | last]; simpl; [discriminate |].
  unfold set_index.
  destruct (Nat.eqb (List.length vals) _) eqn:El; simpl; [| discriminate].
  intros H. inversion H; subst. clear H.
  apply Nat.eqb_eq in El. rewrite length_date_range_MS in El.
  exists model, vals, last. repeat split; auto.
Qed.

Lemma ts_ltb_month_index (a b : Timestamp) :
  (1 <= ts_month a <= 12)%Z -> (1 <= ts_month b <= 12)%Z ->
  (month_index a < month_index b)%Z -> ts_ltb a b = true.
Proof.
  unfold month_index, ts_ltb, ts_compare. intros Ha Hb Hlt.
  destruct (Z.compare_spec (ts_year a) (ts_year b)) as [E | L | G]; try reflexivity.
  - destruct (Z.compare_spec (ts_month a) (ts_month b)); try reflexivity; lia.
  - lia.
Qed.

Lemma month_start_after_month (t : Timestamp) (k : Z) :
  (1 <= ts_month (month_start_after t k) <= 12)%Z.
Proof.
  unfold month_start_after, of_month_index. simpl.
  pose proof (Z.mod_pos_bound (month_index t + k) 12 ltac:(lia)). lia.
Qed.

Lemma strictly_increasing_cons (a : Timestamp) (l : list Timestamp) :
  strictly_increasing (a :: l)
  = match l with
    | [] => true
    | b :: _ => ts_ltb a b && strictly_increasing l
    end.
Proof. destruct l; reflexivity. Qed.

Lemma month_starts_from_increasing (t : Timestamp) (h : nat) (first : Z) :
  strictly_increasing (month_starts_from t first h) = true.
Proof.
  unfold month_starts_from.
  assert (G : forall n a,
             strictly_increasing
               (map (fun k => month_start_after t (first + Z.of_nat k)) (seq a n)) = true).
  { induction n as [| n IH]; intros a; [reflexivity |].
    cbn [seq map]. rewrite strictly_increasing_cons.
    destruct n as [| n]; [reflexivity |].
    cbn [seq map]. apply andb_true_iff. split.
    - apply ts_ltb_month_index; try apply month_start_after_month.
      rewrite !month_index_month_start_after. lia.
    - exact (IH (S a)). }
  apply G.
Qed.

(** The dates of a successful forecast are strictly increasing and all
    later than the last historical date. *)
Theorem forecast_dates_follow_history :
  forall (Model FittedModel : Type)
         (ES : Series -> ModelConfig -> Exc.t Model)
         (fit : Model -> Exc.t FittedModel)
         (forecast : FittedModel -> nat -> Exc.t (list Q))
         (history : Series) (last : Timestamp) (v : Q) (h : nat)
         (fc : Series) (fitted : FittedModel),
    (1 <= ts_month last <= 12)%Z ->
    (1 <= ts_day last)%Z ->
    generate_forecast ES fit forecast (history ++ [(last, v)]) h
    = (Some fc, Some fitted, None) ->
    strictly_increasing (last :: series_index fc) = true.
Proof.
  intros Model FittedModel ES fit forecast history last v h fc fitted Hm Hd Hok.
  apply generate_forecast_success_inv in Hok.
  destruct Hok as (model & vals & last' & _ & _ & _ & Hlast & Hlen & ->).
  unfold series_index in Hlast. rewrite map_app in Hlast. simpl in Hlast.
  rewrite last_item_snoc in Hlast. inversion Hlast; subst last'. clear Hlast.
  subst h.
  unfold series_index. rewrite map_fst_combine
    by (rewrite length_date_range_MS; lia).
  rewrite forecast_dates_from_last by assumption.
  rewrite strictly_increasing_cons.
  pose proof (month_starts_from_increasing last
                (List.length vals) (if (ts_day last =? 1)%Z then 1 else 2)) as Hinc.
  destruct (month_starts_from last (if (ts_day last =? 1)%Z then 1 else 2)
                              (List.length vals)) as [| b rest] eqn:E; [reflexivity |].
  rewrite Hinc, andb_true_r.
  destruct (List.length vals) as [| n]; [discriminate |].
  unfold month_starts_from in E. cbn [seq map] in E. inversion E; subst b.
  apply ts_ltb_month_index; [assumption | apply month_start_after_month |].
  rewrite month_index_month_start_after.
  destruct (ts_day last =? 1)%Z; lia.
Qed.

(** A successful forecast carries the values and the fitted model of the
    library unchanged. *)
Theorem forecast_values_are_the_library_s :
  forall (Model FittedModel : Type)
         (ES : Series -> ModelConfig -> Exc.t Model)
         (fit : Model -> Exc.t FittedModel)
         (forecast : FittedModel -> nat -> Exc.t (list Q))
         (time_series : Series) (h : nat) (fc : Series) (fitted : FittedModel),
    generate_forecast ES fit forecast time_series h = (Some fc, Some fitted, None) ->
    exists model,
      ES time_series (model_config (List.length time_series)) = inr model /\
      fit model = inr fitted /\
      forecast fitted h = inr (series_values fc).
Proof.
  intros Model FittedModel ES fit forecast time_series h fc fitted Hok.
  apply generate_forecast_success_inv in Hok.
  destruct Hok as (model & vals & last & HES & Hfit & Hfc & _ & Hlen & ->).
  exists model. repeat split; auto.
  unfold series_values. rewrite map_snd_combine; [exact Hfc |].
  rewrite length_date_range_MS. lia.
Qed.

(** When the library answers with a number of values other than the
    horizon, the call fails on the index assignment. *)
Theorem forecast_of_wrong_length_is_an_error :
  forall (Model FittedModel : Type)
         (ES : Series -> ModelConfig -> Exc.t Model)
         (fit : Model -> Exc.t FittedModel)
         (forecast : FittedModel -> nat -> Exc.t (list Q))
         (history : Series) (r : Timestamp * Q) (h : nat)
         (model : Model) (fitted : FittedModel) (vals : list Q),
    ES (history ++ [r]) (model_config (List.length (history ++ [r]))) = inr model ->
    fit model = inr fitted ->
    forecast fitted h = inr vals ->
    List.length vals <> h ->
    exists e,
      generate_forecast ES fit forecast (history ++ [r]) h
      = (None, None, Some ("Forecasting error: " ++ e)%string).
Proof.
  intros Model FittedModel ES fit forecast history r h model fitted vals
         HES Hfit Hfc Hlen.
  eexists.
  unfold generate_forecast, generate_forecast_try, forecast_index.
  rewrite HES. simpl. rewrite Hfit. simpl. rewrite Hfc. simpl.
  unfold series_index. rewrite map_app. simpl map. rewrite last_item_snoc. simpl.
  unfold set_index. rewrite length_date_range_MS.
  apply Nat.eqb_neq in Hlen. rewrite Hlen. reflexivity.
Qed.

(** On the empty series the call is an error whatever the library does. *)
Theorem forecast_of_empty_series_is_an_error :
  forall (Model FittedModel : Type)
         (ES : Series -> ModelConfig -> Exc.t Model)
         (fit : Model -> Exc.t FittedModel)
         (forecast : FittedModel -> nat -> Exc.t (list Q))
         (h : nat),
  exists e,
    generate_forecast ES fit forecast [] h
    = (None, None, Some ("Forecasting error: " ++ e)%string).
Proof.
  intros Model FittedModel ES fit forecast h.
  unfold generate_forecast, generate_forecast_try, forecast_index.
  destruct (ES _ _) as [e | model]; simpl; [eauto |].
  destruct (fit model) as [e | fm]; simpl; [eauto |].
  destruct (forecast fm h) as [e | vals]; simpl; eauto.
Qed.

Lemma forecast_dates_follow_history_witness :
  strictly_increasing
    (Demo.date 2024 6 1
     :: series_index (combine (month_starts_from (Demo.date 2024 6 1) 1 3)
                              (repeat (150 # 1)%Q 3))) = true.
Proof.
  apply (@forecast_dates_follow_history
           Demo.Model Demo.Model Demo.smoothing Demo.fit Demo.forecast
           (firstn 5 Demo.monthly) (Demo.date 2024 6 1) (150 # 1)%Q 3
           _ (Demo.monthly, model_config 6)).
  - simpl. lia.
  - simpl. lia.
  - reflexivity.
Defined.

Lemma forecast_values_are_the_library_s_witness :
  exists model,
    Demo.smoothing Demo.monthly (model_config (List.length Demo.monthly)) = inr model /\
    Demo.fit model = inr (Demo.monthly, model_config 6) /\
    Demo.forecast (Demo.monthly, model_config 6) 3
    = inr (series_values (combine (month_starts_from (Demo.date 2024 6 1) 1 3)
                                  (repeat (150 # 1)%Q 3))).
Proof.
  apply (@forecast_values_are_the_library_s
           Demo.Model Demo.Model Demo.smoothing Demo.fit Demo.forecast
           Demo.monthly 3).
  reflexivity.
Defined.

Lemma forecast_of_wrong_length_is_an_error_witness :
  exists e,
    generate_forecast Demo.smoothing Demo.fit Demo.forecast_one_short
      (firstn 5 Demo.monthly ++ [(Demo.date 2024 6 1, (150 # 1)%Q)]) 3
    = (None, None, Some ("Forecasting error: " ++ e)%string).
Proof.
  apply (@forecast_of_wrong_length_is_an_error
           Demo.Model Demo.Model Demo.smoothing Demo.fit Demo.forecast_one_short
           (firstn 5 Demo.monthly) (Demo.date 2024 6 1, (150 # 1)%Q) 3
           (Demo.monthly, model_config 6) (Demo.monthly, model_config 6)
           (repeat (150 # 1)%Q 2)).
  - reflexivity.
  - reflexivity.
  - reflexivity.
  - simpl. lia.
Defined.

(* ------------------------------------------------------------------ *)
(** ** Metrics: further properties *)

Lemma last_item_inl_iff {A} (xs : list A) :
  (exists e, last_item xs = inl e) <-> xs = [].
Proof.
  split.
  - intros [e He]. destruct xs as [| x xs] using rev_ind; [reflexivity |].
    rewrite last_item_snoc in He. discriminate.
  - intros ->. eexists. reflexivity.
Qed.

Lemma snoc_of_nonempty {A} (xs : list A) :
  xs <> [] -> exists ys y, xs = ys ++ [y].
Proof.
  destruct xs as [| x xs] using rev_ind; [congruence |].
  intros _. eauto.
Qed.

(** [calculate_metrics] returns exactly when neither series is empty; on an
    empty history or an empty forecast it raises the IndexError of
    [iloc[-1]]. *)
Theorem metrics_defined_iff_both_nonempty :
  forall historical_data forecast_data : Series,
    (exists m, calculate_metrics historical_data forecast_data = inr m)
    <-> historical_data <> [] /\ forecast_data <> [].
Proof.
  intros hd fd. unfold calculate_metrics. split.
  - intros [m Hm]. split; intros ->.
    + simpl in Hm. discriminate.
    + destruct (last_item (series_values hd)); simpl in Hm; discriminate.
  - intros [Hh Hf].
    destruct (snoc_of_nonempty Hh) as (h0 & rh & ->).
    destruct (snoc_of_nonempty Hf) as (f0 & rf & ->).
    unfold series_values at 1 2. rewrite !map_app. simpl map.
    rewrite !last_item_snoc. simpl. eauto.
Qed.

Lemma growth_sign (lh lf : Q) :
  ~ (lh == 0)%Q ->
  ((0 < (lf - lh) / lh * 100)%Q
   <-> ((0 < lh /\ lh < lf) \/ (lh < 0 /\ lf < lh))%Q).
Proof.
  intros Hne.
  assert (H100 : (0 < 100)%Q) by reflexivity.
  assert (Hs : (0 < (lf - lh) / lh * 100 <-> 0 < (lf - lh) / lh)%Q).
  { split; intros H.
    - apply (Qmult_lt_r _ _ 100 H100). now rewrite Qmult_0_l.
    - rewrite <- (Qmult_0_l 100). now apply Qmult_lt_r. }
  rewrite Hs. clear Hs.
  destruct (Q_dec lh 0) as [[Hneg | Hpos] | Hz]; [| | contradiction].
  - (* lh < 0 *)
    assert (Hinv : (0 < - lh)%Q) by (apply (proj1 (Qlt_minus_iff lh 0)) in Hneg;
                                     now rewrite Qplus_0_l in Hneg).
    assert (E : ((lf - lh) / lh == (lh - lf) / (- lh))%Q) by (field; auto).
    rewrite E. split.
    + intros H. right. split; [exact Hneg |].
      apply (Qmult_lt_r _ _ (- lh) Hinv) in H.
      rewrite Qmult_0_l in H.
      assert (E2 : ((lh - lf) / - lh * - lh == lh - lf)%Q) by (field; auto).
      rewrite E2 in H. apply Qlt_minus_iff. 
      now rewrite <- (Qplus_comm (- lf)), Qplus_comm.
    + intros [[Hp _] | [_ Hlt]].
      * exfalso. exact (Qlt_irrefl _ (Qlt_trans _ _ _ Hp Hneg)).
      * apply (Qmult_lt_r _ _ (- lh) Hinv). rewrite Qmult_0_l.
        assert (E2 : ((lh - lf) / - lh * - lh == lh - lf)%Q) by (field; auto).
        rewrite E2. apply Qlt_minus_iff in Hlt. exact Hlt.
  - (* 0 < lh *)
    split.
    + intros H. left. split; [exact Hpos |].
      apply (Qmult_lt_r _ _ lh Hpos) in H.
      rewrite Qmult_0_l in H.
      assert (E2 : ((lf - lh) / lh * lh == lf - lh)%Q) by (field; auto).
      rewrite E2 in H. apply Qlt_minus_iff. exact H.
    + intros [[_ Hlt] | [Hn _]].
      * apply (Qmult_lt_r _ _ lh Hpos). rewrite Qmult_0_l.
        assert (E2 : ((lf - lh) / lh * lh == lf - lh)%Q) by (field; auto).
        rewrite E2. apply Qlt_minus_iff in Hlt. exact Hlt.
      * exfalso. exact (Qlt_irrefl _ (Qlt_trans _ _ _ Hpos Hn)).
Qed.

(** The report words the growth as an increase exactly when the last
    forecast value lies on the far side of the last historical value from
    zero: above a positive one or below a negative one.  After a negative
    last historical value a rise is worded as a decrease. *)
Theorem growth_direction_of_metrics :
  forall (h0 : Series) (th : Timestamp) (lh : Q)
         (f0 : Series) (tf : Timestamp) (lf : Q) (m : Metrics),
    ~ (lh == 0)%Q ->
    calculate_metrics (h0 ++ [(th, lh)]) (f0 ++ [(tf, lf)]) = inr m ->
    exists g,
      growth_rate m = Some g /\
      (growth_direction g = "increase"
       <-> ((0 < lh /\ lh < lf) \/ (lh < 0 /\ lf < lh))%Q).
Proof.
  intros h0 th lh f0 tf lf m Hne.
  unfold calculate_metrics, series_values at 1 2.
  rewrite !map_app. simpl map. rewrite !last_item_snoc. simpl.
  intros H. inversion H; subst m. clear H. simpl.
  unfold float_div.
  destruct (Qeq_bool lh 0) eqn:E.
  - apply Qeq_bool_iff in E. contradiction.
  - simpl. eexists. split; [reflexivity |].
    rewrite <- (growth_sign lf Hne). unfold growth_direction.
    rewrite <- Qgtb_lt.
    destruct (Qgtb ((lf - lh) / lh * 100) 0); split; congruence.
Qed.

Lemma growth_direction_of_metrics_witness :
  exists g,
    growth_rate (mkMetrics (Some (-50 # 1)%Q) (Some (-40 # 1)%Q)
                           (Some (((-40 # 1) - (-50 # 1)) / (-50 # 1) * 100)%Q)
                           (0 + (-40 # 1))%Q (0 + (-50 # 1))%Q 1) = Some g /\
    (growth_direction g = "increase"
     <-> ((0 < (-50 # 1) /\ (-50 # 1) < (-40 # 1))
          \/ ((-50 # 1) < 0 /\ (-40 # 1) < (-50 # 1)))%Q).
Proof.
  apply (@growth_direction_of_metrics
           [] (Demo.date 2024 6 1) (-50 # 1)%Q [] (Demo.date 2024 7 1) (-40 # 1)%Q).
  - intros H. discriminate H.
  - reflexivity.
Defined.

(** After a successful forecast over one period or more, the metrics are
    defined and report the horizon as the number of forecast periods. *)
Theorem metrics_after_forecast :
  forall (Model FittedModel : Type)
         (ES : Series -> ModelConfig -> Exc.t Model)
         (fit : Model -> Exc.t FittedModel)
         (forecast : FittedModel -> nat -> Exc.t (list Q))
         (time_series : Series) (h : nat) (fc : Series) (fitted : FittedModel),
    1 <= h ->
    generate_forecast ES fit forecast time_series h = (Some fc, Some fitted, None) ->
    exists m,
      calculate_metrics time_series fc = inr m /\ forecast_periods m = h.
Proof.
  intros Model FittedModel ES fit forecast time_series h fc fitted Hh Hok.
  apply generate_forecast_success_inv in Hok.
  destruct Hok as (model & vals & last & _ & _ & _ & Hlast & Hlen & ->).
  assert (Hfc : List.length (combine (date_range_MS (date_offset_months 1 last) h) vals) = h).
  { rewrite length_combine, length_date_range_MS. lia. }
  assert (Hts : time_series <> []).
  { intros ->. discriminate Hlast. }
  assert (Hne : combine (date_range_MS (date_offset_months 1 last) h) vals <> []).
  { intros E. rewrite E in Hfc. simpl in Hfc. lia. }
  destruct (snoc_of_nonempty Hts) as (h0 & rh & Eh).
  destruct (snoc_of_nonempty Hne) as (f0 & rf & Ef).
  unfold calculate_metrics, series_values at 1 2.
  rewrite Ef in *. rewrite Eh.
  rewrite !map_app. simpl map. rewrite !last_item_snoc. simpl.
  eexists. split; [reflexivity |]. simpl. exact Hfc.
Qed.

Lemma metrics_after_forecast_witness :
  exists m,
    calculate_metrics Demo.monthly
      (combine (month_starts_from (Demo.date 2024 6 1) 1 3) (repeat (150 # 1)%Q 3))
    = inr m /\ forecast_periods m = 3.
Proof.
  apply (@metrics_after_forecast
           Demo.Model Demo.Model Demo.smoothing Demo.fit Demo.forecast
           Demo.monthly 3 _ (Demo.monthly, model_config 6)).
  - lia.
  - reflexivity.
Defined.

(* ------------------------------------------------------------------ *)
(** ** Format inference and series preparation: further properties *)

Lemma find_first {A} (p : A -> bool) (l : list A) (x : A) :
  find p l = Some x ->
  exists before after,
    l = before ++ x :: after /\ p x = true /\
    Forall (fun y => p y = false) before.
Proof.
  induction l as [| a l IH]; simpl; [discriminate |].
  destruct (p a) eqn:E.
  - intros H. inversion H; subst. exists [], l. auto.
  - intros H. destruct (IH H) as (b & af & -> & Hx & Hb).
    exists (a :: b), af. repeat split; auto.
Qed.

Lemma sequence_entries_none {A} (rs : list (unit + A)) :
  sequence_entries rs = None <-> In (inl tt) rs.
Proof.
  induction rs as [| [[] | a] rs IH]; simpl.
  - split; [discriminate | tauto].
  - split; auto.
  - destruct (sequence_entries rs); simpl.
    + split; [discriminate |]. intros [H | H]; [discriminate |].
      apply IH in H. discriminate.
    + split; [| reflexivity]. intros _. right. now apply IH.
Qed.

Lemma length_sequence_entries {A} (rs : list (unit + A)) (xs : list A) :
  sequence_entries rs = Some xs -> List.length xs = List.length rs.
Proof.
  revert xs. induction rs as [| [[] | a] rs IH]; simpl; intros xs H.
  - inversion H. reflexivity.
  - discriminate.
  - destruct (sequence_entries rs) as [ys |]; simpl in H; [| discriminate].
    inversion H; subst. simpl. f_equal. now apply IH.
Qed.

Lemma length_sort_values (rows : Series) :
  List.length (sort_values rows) = List.length rows.
Proof. symmetry. apply Permutation_length, sort_values_perm. Qed.

Lemma length_dropna_rows_le (rows : list (option Timestamp * option Q)) :
  List.length (dropna_rows rows) <= List.length rows.
Proof.
  induction rows as [| [[t |] [q |]] rows IH]; simpl; lia.
Qed.

Lemma get_column_in (df : DataFrame) (name : string) (c : Column) :
  get_column df name = Some c -> In c (df_columns df) /\ col_name c = name.
Proof.
  unfold get_column. intros H. apply find_some in H.
  destruct H as [Hin He]. apply String.eqb_eq in He. auto.
Qed.

Lemma sort_values_of_increasing (rows : Series) :
  strictly_increasing (series_index rows) = true -> sort_values rows = rows.
Proof.
  unfold sort_values, series_index.
  induction rows as [| r rows IH]; [reflexivity |].
  cbn [map]. rewrite strictly_increasing_cons. intros H. cbn [fold_right].
  destruct rows as [| x rows]; [reflexivity |].
  cbn [map] in H. apply andb_true_iff in H. destruct H as [Hlt Hrest].
  rewrite (IH Hrest). cbn [insert_row].
  replace (ts_leb (fst r) (fst x)) with true; [reflexivity |].
  unfold ts_ltb in Hlt. unfold ts_leb.
  destruct (ts_compare (fst r) (fst x)); congruence.
Qed.

Section PreparationFacts.

Variable strptime_ok : string -> Cell -> bool.
Variable to_datetime_entry :
  option string -> list (option Cell) -> Cell -> option Timestamp.
Variable numeric_of_string : string -> option Q.
Variable epoch_ns : Timestamp -> Q.

Let infer := infer_date_format strptime_ok.
Let prepare :=
  prepare_time_series strptime_ok to_datetime_entry numeric_of_string epoch_ns.

(** An inferred format is the first of the common formats, in their fixed
    order, under which every one of the first five non-missing entries
    parses; no format is inferred from a column without entries. *)
Theorem inferred_format_is_first_fit :
  forall (series : ColData) (fmt : string),
    infer series = Some fmt ->
    let sample := firstn 5 (dropna (col_cells series)) in
    sample <> [] /\
    exists before after,
      common_formats = before ++ fmt :: after /\
      forallb (strptime_ok fmt) sample = true /\
      Forall (fun f => forallb (strptime_ok f) sample = false) before.
Proof.
  intros series fmt. unfold infer, infer_date_format.
  destruct (firstn 5 (dropna (col_cells series))) as [| c cs] eqn:E.
  - discriminate.
  - cbn [List.length Nat.eqb]. intros H. split; [discriminate |].
    exact (find_first (fun f => forallb (strptime_ok f) (c :: cs)) _ H).
Qed.

(** Day-first wins over month-first: a sample that fits [%d/%m/%Y] and
    does not fit [%Y-%m-%d] is read as [%d/%m/%Y], even when it fits
    [%m/%d/%Y] as well. *)
Theorem day_first_format_preferred :
  forall series : ColData,
    let sample := firstn 5 (dropna (col_cells series)) in
    sample <> [] ->
    forallb (strptime_ok "%d/%m/%Y") sample = true ->
    forallb (strptime_ok "%Y-%m-%d") sample = false ->
    infer series = Some "%d/%m/%Y".
Proof.
  intros series sample Hne Hd Hy. unfold infer, infer_date_format. fold sample.
  destruct sample as [| c cs] eqn:E; [congruence |].
  cbn [List.length Nat.eqb]. unfold common_formats. cbn [find].
  rewrite Hy, Hd. reflexivity.
Qed.

(** [prepare_time_series] raises in exactly four cases: the two labels are
    the same, one of them is not a column, or a present entry of a date
    column that is not datetime-typed does not parse under the inferred
    format (under generic parsing when none was inferred).  Nothing in
    the value column makes it raise. *)
Theorem prepare_raises_iff :
  forall (df : DataFrame) (date_col value_col : string),
    (exists e, prepare df date_col value_col = inl e)
    <-> (date_col = value_col \/
         get_column df date_col = None \/
         get_column df value_col = None \/
         exists dc c,
           get_column df date_col = Some dc /\
           is_datetime64_any_dtype (col_data dc) = false /\
           In (Some c) (col_cells (col_data dc)) /\
           to_datetime_entry (infer (col_data dc)) (col_cells (col_data dc)) c = None).
Proof.
  intros df date_col value_col. unfold prepare, prepare_time_series.
  destruct (String.eqb date_col value_col) eqn:Eq.
  { apply String.eqb_eq in Eq. split; eauto. }
  apply String.eqb_neq in Eq.
  destruct (get_column df date_col) as [dc |] eqn:Ed.
  2:{ split; eauto. }
  destruct (get_column df value_col) as [vc |] eqn:Ev.
  2:{ split; eauto. }
  unfold to_datetime_raise. fold infer.
  destruct (sequence_entries (to_datetime_entries to_datetime_entry
                                (infer (col_data dc)) (col_data dc))) as [ts |] eqn:Es.
  - simpl. split.
    + intros [e He]. discriminate.
    + intros [H | [H | [H | (dc' & c & Hdc & Hdt & Hin & Hnone)]]];
        try congruence.
      inversion Hdc; subst dc'. exfalso.
      assert (Hbad : sequence_entries
                       (to_datetime_entries to_datetime_entry
                          (infer (col_data dc)) (col_data dc)) = None).
      { apply sequence_entries_none. unfold to_datetime_entries.
        destruct (col_data dc) as [xs | xs | xs] eqn:Ec; [discriminate | |].
        - apply in_map_iff. exists (Some c). rewrite Hnone. auto.
        - apply in_map_iff. exists (Some c). rewrite Hnone. auto. }
      congruence.
  - simpl. split; [| eauto].
    intros _. right; right; right.
    apply sequence_entries_none in Es. unfold to_datetime_entries in Es.
    exists dc.
    destruct (col_data dc) as [xs | xs | xs] eqn:Ec.
    + apply in_map_iff in Es. destruct Es as (x & Hx & _). discriminate.
    + apply in_map_iff in Es. destruct Es as ([c |] & Hx & Hin); [| discriminate].
      exists c. repeat split; auto.
      destruct (to_datetime_entry _ _ c); [discriminate | reflexivity].
    + apply in_map_iff in Es. destruct Es as ([c |] & Hx & Hin); [| discriminate].
      exists c. repeat split; auto.
      destruct (to_datetime_entry _ _ c); [discriminate | reflexivity].
Qed.

(** A prepared series is never longer than the table. *)
Theorem prepared_series_no_longer_than_table :
  forall (df : DataFrame) (date_col value_col : string) (s : Series),
    aligned df = true ->
    prepare df date_col value_col = inr s ->
    List.length s <= df_nrows df.
Proof.
  intros df date_col value_col s Hal.
  unfold prepare, prepare_time_series.
  destruct (String.eqb date_col value_col); [discriminate |].
  destruct (get_column df date_col) as [dc |] eqn:Ed; [| discriminate].
  destruct (get_column df value_col) as [vc |]; [| discriminate].
  unfold to_datetime_raise.
  destruct (sequence_entries _) as [dates |] eqn:Es; simpl; [| discriminate].
  intros H. inversion H; subst s. clear H.
  rewrite length_sort_values.
  pose proof (length_dropna_rows_le
                (combine dates (to_numeric_coerce numeric_of_string epoch_ns (col_data vc)))).
  rewrite length_combine in H.
  apply length_sequence_entries in Es.
  assert (Hlen : List.length (to_datetime_entries to_datetime_entry
                                (infer_date_format strptime_ok (col_data dc)) (col_data dc))
                 = col_len dc).
  { unfold to_datetime_entries, col_len.
    destruct (col_data dc); simpl; now rewrite ?length_map. }
  apply get_column_in in Ed. destruct Ed as [Hin _].
  unfold aligned in Hal. rewrite forallb_forall in Hal.
  apply Hal in Hin. apply Nat.eqb_eq in Hin. lia.
Qed.

(** A table that is already clean and in date order passes through
    unchanged: datetime-typed dates that strictly increase and numeric
    values, none missing, give the rows as they stand. *)
Theorem prepare_keeps_clean_ordered_rows :
  forall (df : DataFrame) (date_col value_col : string)
         (dates : list Timestamp) (values : list Q),
    date_col <> value_col ->
    option_map col_data (get_column df date_col) = Some (DatetimeCol (map Some dates)) ->
    option_map col_data (get_column df value_col) = Some (NumericCol (map Some values)) ->
    List.length dates = List.length values ->
    strictly_increasing dates = true ->
    prepare df date_col value_col = inr (combine dates values).
Proof.
  intros df date_col value_col dates values Hne Hd Hv Hlen Hinc.
  unfold prepare, prepare_time_series.
  apply String.eqb_neq in Hne. rewrite Hne.
  destruct (get_column df date_col) as [dc |]; [| discriminate].
  destruct (get_column df value_col) as [vc |]; [| discriminate].
  simpl in Hd, Hv. inversion Hd as [Hd']. inversion Hv as [Hv']. clear Hd Hv.
  rewrite Hd', Hv'.
  unfold to_datetime_raise, to_datetime_entries, to_numeric_coerce, to_numeric_entries.
  assert (Hseq : forall A (xs : list A),
             sequence_entries (map (@inr unit A) xs) = Some xs).
  { intros A xs. induction xs as [| x xs IH]; simpl; [reflexivity | now rewrite IH]. }
  rewrite Hseq. simpl.
  rewrite map_map, map_id.
  assert (Hdrop : forall ds vs,
             dropna_rows (combine (map Some ds) (map Some vs)) = combine ds vs).
  { induction ds as [| d ds IH]; intros [| v vs]; simpl; try reflexivity.
    now rewrite IH. }
  rewrite Hdrop. unfold Exc.ret. f_equal.
  apply sort_values_of_increasing.
  unfold series_index. rewrite map_fst_combine by lia. exact Hinc.
Qed.

End PreparationFacts.

Lemma inferred_format_is_first_fit_witness :
  let sample :=
    firstn 5 (dropna (col_cells (ObjectCol
      [ Some (CStr "2024-01-05"); Some (CStr "2024-02-05"); Some (CStr "2024-03-05") ]))) in
  sample <> [] /\
  exists before after,
    common_formats = before ++ "%Y-%m-%d" :: after /\
    forallb (Demo.strptime_ok "%Y-%m-%d") sample = true /\
    Forall (fun f => forallb (Demo.strptime_ok f) sample = false) before.
Proof.
  apply (@inferred_format_is_first_fit Demo.strptime_ok
           (ObjectCol [ Some (CStr "2024-01-05"); Some (CStr "2024-02-05");
                        Some (CStr "2024-03-05") ]) "%Y-%m-%d").
  reflexivity.
Defined.

Lemma day_first_format_preferred_witness :
  infer_date_format Demo.strptime_slashed_ok Demo.ambiguous_dates = Some "%d/%m/%Y"
  /\ forallb (Demo.strptime_slashed_ok "%m/%d/%Y")
             (firstn 5 (dropna (col_cells Demo.ambiguous_dates))) = true.
Proof.
  split.
  - apply (@day_first_format_preferred Demo.strptime_slashed_ok Demo.ambiguous_dates).
    + discriminate.
    + reflexivity.
    + reflexivity.
  - reflexivity.
Defined.

Lemma prepared_series_no_longer_than_table_witness :
  List.length
    [ (Demo.date 2024 1 1, 100 # 1); (Demo.date 2024 2 1, 110 # 1);
      (Demo.date 2024 4 1, 130 # 1); (Demo.date 2024 5 1, 140 # 1);
      (Demo.date 2024 6 1, 150 # 1) ]%Q
  <= df_nrows Demo.six_rows_one_gap.
Proof.
  apply (@prepared_series_no_longer_than_table
           Demo.strptime_ok Demo.to_datetime_entry Demo.numeric_of_string Demo.epoch_ns
           Demo.six_rows_one_gap "Date" "Revenue").
  - reflexivity.
  - reflexivity.
Defined.

Lemma prepare_keeps_clean_ordered_rows_witness :
  prepare_time_series Demo.strptime_ok Demo.to_datetime_entry Demo.numeric_of_string
    Demo.epoch_ns Demo.clean_table "Date" "Revenue"
  = inr (combine Demo.clean_dates Demo.clean_values).
Proof.
  apply (@prepare_keeps_clean_ordered_rows
           Demo.strptime_ok Demo.to_datetime_entry Demo.numeric_of_string Demo.epoch_ns
           Demo.clean_table "Date" "Revenue" Demo.clean_dates Demo.clean_values).
  - discriminate.
  - reflexivity.
  - reflexivity.
  - reflexivity.
  - reflexivity.
Defined.

(* ------------------------------------------------------------------ *)
(** ** Value column detection and suggestion: properties *)

Lemma suggest_value_loop_filter (numeric_columns : list string) :
  forall keyword_matches other_cols,
    suggest_value_loop numeric_columns keyword_matches other_cols
    = (keyword_matches ++ filter has_value_keyword numeric_columns,
       other_cols ++ filter (fun c => negb (has_value_keyword c)) numeric_columns).
Proof.
  induction numeric_columns as [| col rest IH]; intros km oc.
  - cbn [suggest_value_loop filter]. now rewrite !app_nil_r.
  - cbn [suggest_value_loop filter].
    change (any_keyword_in value_keywords (lower col)) with (has_value_keyword col).
    destruct (has_value_keyword col); cbn [negb]; rewrite IH, <- app_assoc;
      reflexivity.
Qed.

Lemma hd_error_filter_find {A} (p : A -> bool) (xs : list A) :
  hd_error (filter p xs) = find p xs.
Proof.
  induction xs as [| x xs IH]; simpl; [reflexivity |].
  destruct (p x); [reflexivity | exact IH].
Qed.

Lemma filter_negb_all {A} (p : A -> bool) (xs : list A) :
  find p xs = None -> filter (fun x => negb (p x)) xs = xs.
Proof.
  induction xs as [| x xs IH]; simpl; [reflexivity |].
  destruct (p x); [discriminate |]. simpl. intros H. now rewrite IH.
Qed.

Lemma suggest_value_column_lists (df : DataFrame) (numeric_columns : list string) :
  suggest_value_column df numeric_columns
  = hd_error (filter has_value_keyword numeric_columns
              ++ filter (fun c => negb (has_value_keyword c)) numeric_columns).
Proof.
  unfold suggest_value_column.
  destruct numeric_columns as [| c cs] eqn:E; [reflexivity |].
  rewrite <- E. rewrite suggest_value_loop_filter. cbn [app].
  destruct (filter has_value_keyword numeric_columns) as [| k ks]; [| reflexivity].
  cbn [app].
  destruct (filter (fun c0 => negb (has_value_keyword c0)) numeric_columns);
    reflexivity.
Qed.

(** The suggestion is the first candidate whose lower-cased name contains
    a financial keyword, and the first candidate when none does; there is
    no suggestion exactly when there is no candidate. *)
Theorem suggestion_is_first_keyword_else_first :
  forall (df : DataFrame) (numeric_columns : list string),
    suggest_value_column df numeric_columns
    = match find has_value_keyword numeric_columns with
      | Some k => Some k
      | None => hd_error numeric_columns
      end.
Proof.
  intros df numeric_columns. rewrite suggest_value_column_lists.
  pose proof (hd_error_filter_find has_value_keyword numeric_columns) as Hk.
  destruct (find has_value_keyword numeric_columns) as [k |] eqn:Ef.
  - destruct (filter has_value_keyword numeric_columns); [discriminate |].
    simpl in Hk. inversion Hk. reflexivity.
  - destruct (filter has_value_keyword numeric_columns); [| discriminate].
    cbn [app]. now rewrite (filter_negb_all _ _ Ef).
Qed.

Lemma suggestion_in_candidates (df : DataFrame) (numeric_columns : list string)
      (s : string) :
  suggest_value_column df numeric_columns = Some s -> In s numeric_columns.
Proof.
  rewrite suggest_value_column_lists. intros H.
  assert (Hin : In s (filter has_value_keyword numeric_columns
                      ++ filter (fun c => negb (has_value_keyword c)) numeric_columns)).
  { destruct (filter has_value_keyword numeric_columns ++ _) as [| x xs];
      [discriminate |]. inversion H. now left. }
  apply in_app_or in Hin. destruct Hin as [Hin | Hin];
    apply filter_In in Hin; tauto.
Qed.

Lemma permutation_move_to_front (s : string) (xs : list string) :
  NoDup xs -> In s xs ->
  Permutation xs (s :: filter (fun c => negb (String.eqb c s)) xs).
Proof.
  induction xs as [| x xs IH]; intros Hnd Hin; [contradiction |].
  inversion Hnd as [| ? ? Hnotin Hnd']; subst.
  cbn [filter]. destruct (String.eqb x s) eqn:E.
  - apply String.eqb_eq in E. subst x. cbn [negb].
    apply perm_skip.
    assert (Hall : forall ys, ~ In s ys ->
                     filter (fun c => negb (String.eqb c s)) ys = ys).
    { induction ys as [| y ys IHy]; intros Hn; [reflexivity |].
      cbn [filter]. destruct (String.eqb y s) eqn:Ey.
      - apply String.eqb_eq in Ey. subst. exfalso. apply Hn. now left.
      - cbn [negb]. f_equal. apply IHy. intros H. apply Hn. now right. }
    now rewrite Hall.
  - cbn [negb]. destruct Hin as [-> | Hin].
    + rewrite String.eqb_refl in E. discriminate.
    + rewrite perm_swap. apply perm_skip. now apply IH.
Qed.

Section ClassificationFacts.

Variable strptime_ok : string -> Cell -> bool.
Variable to_datetime_entry :
  option string -> list (option Cell) -> Cell -> option Timestamp.
Variable numeric_of_string : string -> option Q.
Variable epoch_ns : Timestamp -> Q.

Let numeric_ok := numeric_candidate numeric_of_string epoch_ns.
Let numerics := detect_numeric_columns numeric_of_string epoch_ns.
Let detect := detect_date_column strptime_ok to_datetime_entry.

Lemma detect_numeric_loop_filter (exclude_col : option string) (cols : list Column) :
  forall numeric_cols,
    detect_numeric_loop numeric_of_string epoch_ns cols exclude_col numeric_cols
    = numeric_cols
        ++ map col_name
             (filter (fun c => negb (excluded exclude_col c) && numeric_ok c) cols).
Proof.
  induction cols as [| col rest IH]; intros acc.
  - cbn [detect_numeric_loop filter map]. now rewrite app_nil_r.
  - cbn [detect_numeric_loop filter].
    change (match exclude_col with
            | Some x => String.eqb (col_name col) x
            | None => false
            end) with (excluded exclude_col col).
    fold (numeric_ok col).
    destruct (excluded exclude_col col); cbn [negb andb]; [apply IH |].
    destruct (numeric_ok col); [| apply IH].
    rewrite IH. cbn [map]. now rewrite <- app_assoc.
Qed.

(** A label is a value candidate exactly when it is the label of a column
    that is numeric, or converts to numbers without an exception, and it
    is not the excluded label. *)
Theorem numeric_columns_membership :
  forall (df : DataFrame) (exclude_col : option string) (name : string),
    In name (numerics df exclude_col)
    <-> (exclude_col <> Some name /\
         exists col, In col (df_columns df) /\ col_name col = name /\
                     numeric_ok col = true).
Proof.
  intros df exclude_col name.
  unfold numerics, detect_numeric_columns.
  rewrite detect_numeric_loop_filter. cbn [app].
  rewrite in_map_iff. split.
  - intros (col & Hn & Hin). apply filter_In in Hin. destruct Hin as [Hin Hc].
    apply andb_true_iff in Hc. destruct Hc as [Hex Hok].
    split; [| eauto].
    intros ->. unfold excluded in Hex. rewrite Hn, String.eqb_refl in Hex.
    discriminate.
  - intros (Hne & col & Hin & Hn & Hok). exists col. split; [exact Hn |].
    apply filter_In. split; [exact Hin |].
    apply andb_true_iff. split; [| exact Hok].
    unfold excluded. destruct exclude_col as [x |]; [| reflexivity].
    destruct (String.eqb (col_name col) x) eqn:E; [| reflexivity].
    apply String.eqb_eq in E. congruence.
Qed.

Lemma numerics_exclude (df : DataFrame) (x : string) :
  ~ In x (numerics df (Some x)).
Proof.
  unfold numerics, detect_numeric_columns.
  rewrite detect_numeric_loop_filter. cbn [app].
  rewrite in_map_iff. intros (col & Hn & Hin).
  apply filter_In in Hin. destruct Hin as [_ Hc].
  apply andb_true_iff in Hc. destruct Hc as [Hex _].
  unfold excluded in Hex. rewrite Hn, String.eqb_refl in Hex. discriminate.
Qed.

(** In the detection of [main] the suggested value column is one of the
    numeric candidates and is never the detected date column. *)
Theorem suggested_value_is_not_the_date :
  forall (df : DataFrame) (s : string),
    let detection :=
      main_detect strptime_ok to_datetime_entry numeric_of_string epoch_ns df in
    suggest_value_column df (snd detection) = Some s ->
    In s (snd detection) /\ fst detection <> Some s.
Proof.
  intros df s detection. subst detection. unfold main_detect. cbn [fst snd].
  fold detect. fold numerics.
  intros H. apply suggestion_in_candidates in H. split; [exact H |].
  intros E. rewrite E in H. exact (numerics_exclude df s H).
Qed.

(** With distinct candidate labels, the value selector offers the
    suggestion first and, after it, the other candidates: the same labels
    as the candidates, reordered. *)
Theorem value_options_start_with_suggestion :
  forall (df : DataFrame) (date_col : string)
         (numeric_columns : list string) (s : string),
    NoDup numeric_columns ->
    s <> EmptyString ->
    suggest_value_column df numeric_columns = Some s ->
    exists others,
      value_options df date_col numeric_columns (Some s) = s :: others /\
      Permutation numeric_columns (s :: others).
Proof.
  intros df date_col numeric_columns s Hnd Hs Hsug.
  apply suggestion_in_candidates in Hsug.
  unfold value_options.
  destruct numeric_columns as [| c cs] eqn:E; [contradiction |].
  cbn [List.length Nat.leb]. rewrite <- E in *.
  unfold truthy. apply String.eqb_neq in Hs. rewrite Hs. cbn [negb].
  eexists. split; [reflexivity |].
  now apply permutation_move_to_front.
Qed.

End ClassificationFacts.

Lemma suggested_value_is_not_the_date_witness :
  In "Revenue" ["Year"; "Revenue"] /\ Some "Invoice Date" <> Some "Revenue".
Proof.
  apply (@suggested_value_is_not_the_date
           Demo.strptime_ok Demo.to_datetime_entry Demo.numeric_of_string Demo.epoch_ns
           Demo.invoices "Revenue").
  reflexivity.
Defined.

Lemma value_options_start_with_suggestion_witness :
  exists others,
    value_options Demo.invoices "Invoice Date" ["Year"; "Revenue"] (Some "Revenue")
    = "Revenue" :: others /\
    Permutation ["Year"; "Revenue"] ("Revenue" :: others).
Proof.
  apply (@value_options_start_with_suggestion
           Demo.invoices "Invoice Date" ["Year"; "Revenue"] "Revenue").
  - repeat constructor; simpl; intuition discriminate.
  - discriminate.
  - reflexivity.
Defined.

(* ------------------------------------------------------------------ *)
(** ** The validation of [main]: properties *)

Section MainFacts.

Variable strptime_ok : string -> Cell -> bool.
Variable to_datetime_entry :
  option string -> list (option Cell) -> Cell -> option Timestamp.
Variable numeric_of_string : string -> option Q.
Variable epoch_ns : Timestamp -> Q.

Let validation :=
  main_validation strptime_ok to_datetime_entry numeric_of_string epoch_ns.
Let prepare :=
  prepare_time_series strptime_ok to_datetime_entry numeric_of_string epoch_ns.
Let parsed_dates (dc : Column) : list (option Timestamp) :=
  to_datetime_coerce to_datetime_entry
    (infer_date_format strptime_ok (col_data dc)) (col_data dc).

Lemma main_validation_flag (df : DataFrame) (date_col value_col : string)
      (v : Validation) :
  validation df date_col value_col = inr v ->
  exists vc,
    get_column df value_col = Some vc /\
    validation_passed v
    = negb (String.eqb date_col value_col)
      && match get_column df date_col with
         | Some dc => negb (Nat.eqb (notna_count (parsed_dates dc)) 0)
         | None => false
         end
      && numeric_candidate numeric_of_string epoch_ns vc.
Proof.
  unfold validation, main_validation, main_validate_date, numeric_candidate.
  destruct (get_column df value_col) as [vc |] eqn:Ev.
  2:{ destruct (get_column df date_col); [| discriminate].
      destruct (Nat.eqb _ 0); [discriminate |].
      destruct (Qgtb _ _); discriminate. }
  intros H. exists vc. split; [reflexivity |]. revert H.
  destruct (get_column df date_col) as [dc |].
  - fold (parsed_dates dc).
    destruct (Nat.eqb (notna_count (parsed_dates dc)) 0);
      [| destruct (Qgtb _ _)];
      destruct (is_numeric_dtype (col_data vc)); cbn [negb];
      try destruct (Exc.succeeds _);
      destruct (String.eqb date_col value_col);
      intros H; inversion H; reflexivity.
  - destruct (is_numeric_dtype (col_data vc)); cbn [negb];
      try destruct (Exc.succeeds _);
      destruct (String.eqb date_col value_col);
      intros H; inversion H; reflexivity.
Qed.

(** The validation of [main] lets the forecast be generated exactly when
    the two labels differ, at least one entry of the date column parses,
    and the value column is numeric or converts to numbers.  Neither the
    number of rows nor the share of parsed dates is a condition. *)
Theorem main_validation_passes_iff :
  forall (df : DataFrame) (date_col value_col : string) (v : Validation),
    validation df date_col value_col = inr v ->
    (validation_passed v = true
     <-> (date_col <> value_col /\
          (exists dc, get_column df date_col = Some dc /\
                      1 <= notna_count (parsed_dates dc)) /\
          (exists vc, get_column df value_col = Some vc /\
                      numeric_candidate numeric_of_string epoch_ns vc = true))).
Proof.
  intros df date_col value_col v Hv.
  destruct (main_validation_flag _ _ _ Hv) as (vc & Hvc & ->).
  rewrite !andb_true_iff, negb_true_iff. split.
  - intros [[Hne Hd] Hn]. apply String.eqb_neq in Hne.
    split; [exact Hne |]. split; [| eauto].
    destruct (get_column df date_col) as [dc |]; [| discriminate].
    exists dc. split; [reflexivity |].
    apply negb_true_iff, Nat.eqb_neq in Hd. lia.
  - intros (Hne & (dc & Hdc & Hc) & (vc' & Hvc' & Hok)).
    rewrite Hvc in Hvc'. inversion Hvc'; subst vc'.
    rewrite Hdc. repeat split.
    + now apply String.eqb_neq.
    + apply negb_true_iff, Nat.eqb_neq. lia.
    + exact Hok.
Qed.

(** A table with datetime-typed dates, one of them present at least, and a
    numeric value column passes the validation of [main] and is prepared
    without an exception, however few rows it has. *)
Theorem typed_table_reaches_the_forecast :
  forall (df : DataFrame) (date_col value_col : string)
         (dates : list (option Timestamp)) (values : list (option Q)),
    date_col <> value_col ->
    option_map col_data (get_column df date_col) = Some (DatetimeCol dates) ->
    option_map col_data (get_column df value_col) = Some (NumericCol values) ->
    1 <= notna_count dates ->
    exists v s,
      validation df date_col value_col = inr v /\
      validation_passed v = true /\
      prepare df date_col value_col = inr s /\
      Permutation (dropna_rows (combine dates values)) s.
Proof.
  intros df date_col value_col dates values Hne Hd Hv Hc.
  unfold validation, main_validation, main_validate_date,
         prepare, prepare_time_series.
  apply String.eqb_neq in Hne. rewrite Hne.
  destruct (get_column df date_col) as [dc |]; [| discriminate].
  destruct (get_column df value_col) as [vc |]; [| discriminate].
  simpl in Hd, Hv. inversion Hd as [Hd']. inversion Hv as [Hv']. clear Hd Hv.
  rewrite Hd', Hv'.
  assert (Hcoerce : forall fmt,
             to_datetime_coerce to_datetime_entry fmt (DatetimeCol dates) = dates).
  { intros fmt. unfold to_datetime_coerce, to_datetime_entries.
    rewrite map_map. apply map_id. }
  assert (Hraise : forall fmt,
             to_datetime_raise to_datetime_entry fmt (DatetimeCol dates) = inr dates).
  { intros fmt. unfold to_datetime_raise, to_datetime_entries.
    assert (Hseq : sequence_entries (map (@inr unit _) dates) = Some dates).
    { clear. induction dates as [| x xs IH]; simpl; [reflexivity | now rewrite IH]. }
    now rewrite Hseq. }
  rewrite Hcoerce, Hraise.
  destruct (Nat.eqb (notna_count dates) 0) eqn:E0;
    [apply Nat.eqb_eq in E0; lia |].
  cbn [is_numeric_dtype negb].
  assert (Hnum : to_numeric_coerce numeric_of_string epoch_ns (NumericCol values) = values).
  { unfold to_numeric_coerce, to_numeric_entries. rewrite map_map. apply map_id. }
  rewrite Hnum.
  destruct (Qgtb _ _); cbn [Exc.bind Exc.ret];
    eexists; eexists; repeat split; apply sort_values_perm.
Qed.

End MainFacts.

Lemma main_validation_passes_iff_witness :
  validation_passed (mkValidation true true true None None) = true
  <-> ("Date" <> "Revenue" /\
       (exists dc, get_column Demo.clean_table "Date" = Some dc /\
                   1 <= notna_count
                          (to_datetime_coerce Demo.to_datetime_entry
                             (infer_date_format Demo.strptime_ok (col_data dc))
                             (col_data dc))) /\
       (exists vc, get_column Demo.clean_table "Revenue" = Some vc /\
                   numeric_candidate Demo.numeric_of_string Demo.epoch_ns vc = true)).
Proof.
  apply (@main_validation_passes_iff
           Demo.strptime_ok Demo.to_datetime_entry Demo.numeric_of_string Demo.epoch_ns
           Demo.clean_table "Date" "Revenue").
  reflexivity.
Defined.

Lemma typed_table_reaches_the_forecast_witness :
  df_nrows Demo.clean_table = 3 /\
  exists v s,
    main_validation Demo.strptime_ok Demo.to_datetime_entry Demo.numeric_of_string
      Demo.epoch_ns Demo.clean_table "Date" "Revenue" = inr v /\
    validation_passed v = true /\
    prepare_time_series Demo.strptime_ok Demo.to_datetime_entry Demo.numeric_of_string
      Demo.epoch_ns Demo.clean_table "Date" "Revenue" = inr s /\
    Permutation
      (dropna_rows (combine (map Some Demo.clean_dates) (map Some Demo.clean_values))) s.
Proof.
  split; [reflexivity |].
  apply (@typed_table_reaches_the_forecast
           Demo.strptime_ok Demo.to_datetime_entry Demo.numeric_of_string Demo.epoch_ns
           Demo.clean_table "Date" "Revenue").
  - discriminate.
  - reflexivity.
  - reflexivity.
  - vm_compute. lia.
Defined.

(* ------------------------------------------------------------------ *)
(** ** Loading and report tables: properties *)

(** [load_excel_file] hands back either a table or a message, never both
    and never neither; a table it hands back is the one read and has at
    least one row and one column. *)
Theorem loaded_table_is_not_empty :
  forall (UploadedFile : Type) (read_excel : UploadedFile -> Exc.t DataFrame)
         (uploaded_file : UploadedFile),
    (exists df,
        load_excel_file read_excel uploaded_file = (Some df, None) /\
        read_excel uploaded_file = inr df /\
        1 <= df_nrows df /\ 1 <= List.length (df_columns df))
    \/ (exists msg, load_excel_file read_excel uploaded_file = (None, Some msg)).
Proof.
  intros UploadedFile read_excel uploaded_file. unfold load_excel_file.
  destruct (read_excel uploaded_file) as [e | df];
    [right; eexists; reflexivity |].
  unfold df_empty.
  destruct (Nat.eqb (df_nrows df) 0) eqn:En;
    [right; eexists; reflexivity |].
  destruct (Nat.eqb (List.length (df_columns df)) 0) eqn:Ec;
    [right; eexists; reflexivity |].
  cbn [orb]. left. exists df.
  apply Nat.eqb_neq in En. apply Nat.eqb_neq in Ec.
  repeat split; lia.
Qed.

Lemma skipn_combine {A B} (k : nat) (xs : list A) (ys : list B) :
  combine (skipn k xs) (skipn k ys) = skipn k (combine xs ys).
Proof.
  revert xs ys. induction k as [| k IH]; intros xs ys; [reflexivity |].
  destruct xs as [| x xs], ys as [| y ys]; simpl; try reflexivity.
  - now destruct (skipn k xs).
  - apply IH.
Qed.

Lemma combine_index_values (s : Series) :
  combine (series_index s) (series_values s) = s.
Proof.
  unfold series_index, series_values.
  induction s as [| [t q] s IH]; simpl; [reflexivity | now rewrite IH].
Qed.

(** The historical table of the report lists the last six rows of the
    history in order, and the whole history when it has fewer than six. *)
Theorem report_history_is_last_six :
  forall (format_eur : Q -> string) (historical_data : Series),
  exists older shown,
    historical_data = older ++ shown /\
    List.length shown = Nat.min 6 (List.length historical_data) /\
    hist_data format_eur historical_data
    = map (fun dv => [strftime_dmy (fst dv); format_eur (snd dv)]) shown.
Proof.
  intros format_eur h.
  exists (firstn (List.length h - 6) h), (skipn (List.length h - 6) h).
  split; [symmetry; apply firstn_skipn |].
  split; [rewrite length_skipn; lia |].
  unfold hist_data, last_n, series_index, series_values.
  rewrite !length_map, skipn_combine.
  fold (series_index h). fold (series_values h).
  now rewrite combine_index_values.
Qed.

Section ValidationFacts.

Variable to_datetime_entry :
  option string -> list (option Cell) -> Cell -> option Timestamp.
Variable numeric_of_string : string -> option Q.
Variable epoch_ns : Timestamp -> Q.

Let validate := validate_columns to_datetime_entry numeric_of_string epoch_ns.

(** [validate_columns] answers [(True, None)] exactly when both labels are
    columns, every present entry of the date column parses under generic
    parsing, the value column is numeric or converts to numbers, and the
    table has six rows or more; otherwise it answers [False] with a
    message.  It does not compare the two labels. *)
Theorem validate_columns_accepts_iff :
  forall (df : DataFrame) (date_col value_col : string),
    (validate df date_col value_col = (true, None) /\
     acceptable to_datetime_entry numeric_of_string epoch_ns df date_col value_col)
    \/ (exists msg,
           validate df date_col value_col = (false, Some msg) /\
           ~ acceptable to_datetime_entry numeric_of_string epoch_ns
               df date_col value_col).
Proof.
  intros df date_col value_col.
  unfold validate, validate_columns, acceptable, numeric_candidate.
  destruct (get_column df date_col) as [dc |] eqn:Ed.
  2:{ right. eexists. split; [reflexivity |].
      intros (dc' & vc' & H & _). discriminate. }
  destruct (get_column df value_col) as [vc |] eqn:Ev.
  2:{ right. eexists. split; [reflexivity |].
      intros (dc' & vc' & _ & H & _). discriminate. }
  destruct (to_datetime_raise to_datetime_entry None (col_data dc)) as [e | ts] eqn:Et.
  { right. eexists. split; [reflexivity |].
    intros (dc' & vc' & H1 & _ & H3 & _). inversion H1; subst dc'.
    rewrite Et in H3. discriminate. }
  destruct (is_numeric_dtype (col_data vc)) eqn:En; cbn [negb andb].
  - destruct (df_nrows df <? 6) eqn:E6.
    + right. eexists. split; [reflexivity |].
      intros (dc' & vc' & _ & _ & _ & _ & H). apply Nat.ltb_lt in E6. lia.
    + left. split; [reflexivity |]. apply Nat.ltb_ge in E6.
      exists dc, vc. rewrite En, ?Et, ?Es. repeat split; auto.
  - destruct (Exc.succeeds (to_numeric_raise numeric_of_string epoch_ns (col_data vc)))
      eqn:Es; cbn [negb].
    + destruct (df_nrows df <? 6) eqn:E6.
      * right. eexists. split; [reflexivity |].
        intros (dc' & vc' & _ & _ & _ & _ & H). apply Nat.ltb_lt in E6. lia.
      * left. split; [reflexivity |]. apply Nat.ltb_ge in E6.
        exists dc, vc. rewrite En, ?Et, ?Es. repeat split; auto.
    + right. eexists. split; [reflexivity |].
      intros (dc' & vc' & _ & H2 & _ & H4 & _). inversion H2; subst vc'.
      rewrite En, Es in H4. discriminate.
Qed.

End ValidationFacts.
